(** * XFIFaucet: a shallow embedding of the faucet contract

    The contract [contracts/XFIFaucet.sol] is a Solidity 0.8 contract that
    inherits OpenZeppelin's [Ownable], [ReentrancyGuard] and [Pausable] and
    talks to an external [IERC20] token.

    - [uint256] values are integers in [Z]; Solidity 0.8 arithmetic is
      checked, so [+] and [-] are modelled by [uadd] and [usub], which
      revert with [Panic 0x11] outside [0 .. 2^256 - 1].
    - [mapping(address => uint256)] is a [gmap Z Z] read with default [0].
    - Every external function is a computation in a state-and-revert
      monad over the whole world (contract storage, token ledger, event
      log).  A revert carries the state it interrupted; [transact] is the
      EVM's transaction boundary and throws that state away.
    - The token is an interface ([IERC20] below), as in the source. *)

From stdpp Require Import gmap strings list pretty.
From Stdlib Require Import ZArith Lia Ascii.

Local Open Scope Z_scope.

(** ** Machine integers *)

Definition address := Z.

Definition UINT256_MOD : Z := 2 ^ 256.
Definition MAX_UINT256 : Z := UINT256_MOD - 1.

Definition is_uint256 (x : Z) : Prop := 0 <= x < UINT256_MOD.

(** [1 days] *)
Definition ONE_DAY : Z := 86400.

(** ** Errors and events *)

Inductive Error :=
| InsufficientFaucetBalance
| CooldownActive (timeRemaining : Z)
| DailyLimitExceeded (currentLimit : Z)
| InvalidAmount
| InvalidAddress
| TransferFailed
| Panic (code : Z)
| RequireFailed (message : string)
| TokenReverted.

(** Arithmetic overflow or underflow outside an [unchecked] block. *)
Definition ARITHMETIC : Z := 17.

Inductive Event :=
| TokensRequested (user : address) (amount : Z)
| FaucetConfigUpdated (tokensPerRequest cooldownTime maxTokensPerDay : Z)
| TokensWithdrawn (owner : address) (amount : Z)
| TokensDeposited (depositor : address) (amount : Z)
| Paused (account : address)
| Unpaused (account : address)
| OwnershipTransferred (previousOwner newOwner : address).

(** ** The revert monad *)

Inductive outcome (S A : Type) :=
| Done (a : A) (s : S)
| Reverted (e : Error) (dirty : S).
Arguments Done {S A} a s.
Arguments Reverted {S A} e dirty.

Definition M (S A : Type) : Type := S -> outcome S A.

Definition ret {S A} (a : A) : M S A := fun s => Done a s.

Definition bind {S A B} (m : M S A) (k : A -> M S B) : M S B :=
  fun s => match m s with
           | Done a s' => k a s'
           | Reverted e d => Reverted e d
           end.

Definition revert {S A} (e : Error) : M S A := fun s => Reverted e s.
Definition gets {S A} (f : S -> A) : M S A := fun s => Done (f s) s.
Definition modify {S} (f : S -> S) : M S unit := fun s => Done tt (f s).

Declare Scope evm_scope.
Delimit Scope evm_scope with evm.
Notation "'let*' x ':=' c 'in' k" := (bind c (fun x => k))
  (at level 10, x name, c at level 100, k at level 200) : evm_scope.
Notation "'exec' c 'in' k" := (bind c (fun _ => k))
  (at level 10, c at level 100, k at level 200) : evm_scope.
Local Open Scope evm_scope.

(** [if (c) revert E();] *)
Definition revert_if {S} (c : bool) (e : Error) : M S unit :=
  if c then revert e else ret tt.

(** [require(c, "message")] *)
Definition require {S} (c : bool) (message : string) : M S unit :=
  if c then ret tt else revert (RequireFailed message).

(** Checked [a + b] and [a - b] on [uint256]. *)
Definition uadd {S} (a b : Z) : M S Z :=
  if a + b <? UINT256_MOD then ret (a + b) else revert (Panic ARITHMETIC).

Definition usub {S} (a b : Z) : M S Z :=
  if b <=? a then ret (a - b) else revert (Panic ARITHMETIC).

(** What a caller outside the transaction sees. *)
Inductive Receipt (A : Type) :=
| Success (a : A)
| Failure (e : Error).
Arguments Success {A} a.
Arguments Failure {A} e.

Definition transact {S A} (m : M S A) (s : S) : S * Receipt A :=
  match m s with
  | Done a s' => (s', Success a)
  | Reverted e _ => (s, Failure e)
  end.

(** ** The token interface *)

Inductive call_result (T A : Type) :=
| Returned (t : T) (a : A)
| Threw.
Arguments Returned {T A} t a.
Arguments Threw {T A}.

(** [IERC20], as far as the faucet uses it.  [transfer] and
    [transferFrom] take the calling contract ([msg.sender] of the token
    call) as their first address.  A token call is a function of the
    token's own ledger: it returns, or throws, and does not call back
    into the faucet. *)
Class IERC20 (T : Type) := {
  balanceOf : T -> address -> Z;
  transfer : T -> address -> address -> Z -> call_result T bool;
  transferFrom : T -> address -> address -> address -> Z -> call_result T bool
}.

(** ** Contract storage *)

Record Storage := mkStorage {
  xfiToken : address;
  tokensPerRequest : Z;
  cooldownTime : Z;
  maxTokensPerDay : Z;
  minTokenBalance : Z;
  nextRequestTime : gmap Z Z;
  dailyRequested : gmap Z Z;
  lastRequestDay : gmap Z Z;
  totalRequests : Z;
  totalTokensDistributed : Z;
  owner : address;          (* Ownable._owner *)
  paused : bool;            (* Pausable._paused *)
  entered : bool            (* ReentrancyGuard._status == _ENTERED *)
}.

(** Reading [m[a]] of a Solidity mapping. *)
Definition mget (m : gmap Z Z) (a : address) : Z := default 0 (m !! a).

Definition set_nextRequestTime (a : address) (v : Z) (st : Storage) : Storage :=
  mkStorage (xfiToken st) (tokensPerRequest st) (cooldownTime st)
    (maxTokensPerDay st) (minTokenBalance st)
    (<[a := v]> (nextRequestTime st)) (dailyRequested st) (lastRequestDay st)
    (totalRequests st) (totalTokensDistributed st)
    (owner st) (paused st) (entered st).

Definition set_dailyRequested (a : address) (v : Z) (st : Storage) : Storage :=
  mkStorage (xfiToken st) (tokensPerRequest st) (cooldownTime st)
    (maxTokensPerDay st) (minTokenBalance st)
    (nextRequestTime st) (<[a := v]> (dailyRequested st)) (lastRequestDay st)
    (totalRequests st) (totalTokensDistributed st)
    (owner st) (paused st) (entered st).

Definition set_lastRequestDay (a : address) (v : Z) (st : Storage) : Storage :=
  mkStorage (xfiToken st) (tokensPerRequest st) (cooldownTime st)
    (maxTokensPerDay st) (minTokenBalance st)
    (nextRequestTime st) (dailyRequested st) (<[a := v]> (lastRequestDay st))
    (totalRequests st) (totalTokensDistributed st)
    (owner st) (paused st) (entered st).

Definition set_totalRequests (v : Z) (st : Storage) : Storage :=
  mkStorage (xfiToken st) (tokensPerRequest st) (cooldownTime st)
    (maxTokensPerDay st) (minTokenBalance st)
    (nextRequestTime st) (dailyRequested st) (lastRequestDay st)
    v (totalTokensDistributed st)
    (owner st) (paused st) (entered st).

Definition set_totalTokensDistributed (v : Z) (st : Storage) : Storage :=
  mkStorage (xfiToken st) (tokensPerRequest st) (cooldownTime st)
    (maxTokensPerDay st) (minTokenBalance st)
    (nextRequestTime st) (dailyRequested st) (lastRequestDay st)
    (totalRequests st) v
    (owner st) (paused st) (entered st).

Definition set_config (tpr cd maxd minb : Z) (st : Storage) : Storage :=
  mkStorage (xfiToken st) tpr cd maxd minb
    (nextRequestTime st) (dailyRequested st) (lastRequestDay st)
    (totalRequests st) (totalTokensDistributed st)
    (owner st) (paused st) (entered st).

Definition set_paused (b : bool) (st : Storage) : Storage :=
  mkStorage (xfiToken st) (tokensPerRequest st) (cooldownTime st)
    (maxTokensPerDay st) (minTokenBalance st)
    (nextRequestTime st) (dailyRequested st) (lastRequestDay st)
    (totalRequests st) (totalTokensDistributed st)
    (owner st) b (entered st).

Definition set_entered (b : bool) (st : Storage) : Storage :=
  mkStorage (xfiToken st) (tokensPerRequest st) (cooldownTime st)
    (maxTokensPerDay st) (minTokenBalance st)
    (nextRequestTime st) (dailyRequested st) (lastRequestDay st)
    (totalRequests st) (totalTokensDistributed st)
    (owner st) (paused st) b.

Definition set_owner (a : address) (st : Storage) : Storage :=
  mkStorage (xfiToken st) (tokensPerRequest st) (cooldownTime st)
    (maxTokensPerDay st) (minTokenBalance st)
    (nextRequestTime st) (dailyRequested st) (lastRequestDay st)
    (totalRequests st) (totalTokensDistributed st)
    a (paused st) (entered st).

(** The transaction environment: [msg.sender] and [block.timestamp]. *)
Record Env := mkEnv {
  msg_sender : address;
  block_timestamp : Z
}.

(** ** The contract *)

Section Faucet.

Context {T : Type} `{Token : IERC20 T}.

(** Everything a transaction can change, and so everything a revert
    restores: the faucet's storage, the token's ledger, the event log.
    [this] is [address(this)]. *)
Record World := mkWorld {
  this : address;
  store : Storage;
  token : T;
  logs : list Event
}.

Definition with_store (f : Storage -> Storage) (w : World) : World :=
  mkWorld (this w) (f (store w)) (token w) (logs w).

Definition with_token (t : T) (w : World) : World :=
  mkWorld (this w) (store w) t (logs w).

Definition sload {A} (f : Storage -> A) : M World A := gets (fun w => f (store w)).
Definition sstore (f : Storage -> Storage) : M World unit := modify (with_store f).

Definition emit (e : Event) : M World unit :=
  modify (fun w => mkWorld (this w) (store w) (token w) (logs w ++ [e])).

(** [xfiToken.balanceOf(address(this))] *)
Definition token_balance : M World Z :=
  gets (fun w => balanceOf (token w) (this w)).

(** [xfiToken.transfer(to, amount)]; a throwing token call bubbles up. *)
Definition token_transfer (to : address) (amount : Z) : M World bool :=
  fun w => match transfer (token w) (this w) to amount with
           | Returned t b => Done b (with_token t w)
           | Threw => Reverted TokenReverted w
           end.

(** [xfiToken.transferFrom(from, to, amount)] *)
Definition token_transferFrom (from to : address) (amount : Z) : M World bool :=
  fun w => match transferFrom (token w) (this w) from to amount with
           | Returned t b => Done b (with_token t w)
           | Threw => Reverted TokenReverted w
           end.

(** *** Inherited modifiers (OpenZeppelin 4.x) *)

Definition nonReentrant {A} (body : M World A) : M World A :=
  let* e := sload entered in
  exec require (negb e) "ReentrancyGuard: reentrant call" in
  exec sstore (set_entered true) in
  let* r := body in
  exec sstore (set_entered false) in
  ret r.

Definition whenNotPaused {A} (body : M World A) : M World A :=
  let* p := sload paused in
  exec require (negb p) "Pausable: paused" in
  body.

Definition whenPaused {A} (body : M World A) : M World A :=
  let* p := sload paused in
  exec require p "Pausable: not paused" in
  body.

Definition onlyOwner {A} (env : Env) (body : M World A) : M World A :=
  let* o := sload owner in
  exec require (o =? msg_sender env) "Ownable: caller is not the owner" in
  body.

(** *** constructor *)

Definition constructor (env : Env) (self : address) (tok : T)
    (_xfiToken : address) (_tokensPerRequest _cooldownTime _maxTokensPerDay : Z)
    : Receipt World :=
  if _xfiToken =? 0 then Failure InvalidAddress
  else Success
    (mkWorld self
       (mkStorage _xfiToken _tokensPerRequest _cooldownTime _maxTokensPerDay
          _tokensPerRequest
          ∅ ∅ ∅ 0 0
          (msg_sender env) false false)
       tok
       [OwnershipTransferred 0 (msg_sender env)]).

(** *** requestTokens

    [tokensPerRequest] is read from storage at each of its uses in the
    source; the function never writes it, so one read is bound here. *)

Definition requestTokens (env : Env) : M World unit :=
  nonReentrant (whenNotPaused (
    let user := msg_sender env in
    let currentTime := block_timestamp env in
    let currentDay := currentTime / ONE_DAY in
    (* Check cooldown *)
    let* nrt := sload (fun st => mget (nextRequestTime st) user) in
    exec (if currentTime <? nrt
          then let* remaining := usub nrt currentTime in
               revert (CooldownActive remaining)
          else ret tt) in
    (* Reset daily counter if new day *)
    let* lrd := sload (fun st => mget (lastRequestDay st) user) in
    exec (if lrd <? currentDay
          then exec sstore (set_dailyRequested user 0) in
               sstore (set_lastRequestDay user currentDay)
          else ret tt) in
    (* Check daily limit *)
    let* dr := sload (fun st => mget (dailyRequested st) user) in
    let* tpr := sload tokensPerRequest in
    let* wanted := uadd dr tpr in
    let* maxd := sload maxTokensPerDay in
    exec (if maxd <? wanted
          then let* left := usub maxd dr in
               revert (DailyLimitExceeded left)
          else ret tt) in
    (* Check faucet balance *)
    let* faucetBalance := token_balance in
    exec revert_if (faucetBalance <? tpr) InsufficientFaucetBalance in
    (* Update user state *)
    let* cd := sload cooldownTime in
    let* nxt := uadd currentTime cd in
    exec sstore (set_nextRequestTime user nxt) in
    let* cur := sload (fun st => mget (dailyRequested st) user) in
    let* cur' := uadd cur tpr in
    exec sstore (set_dailyRequested user cur') in
    (* Update statistics *)
    let* n := sload totalRequests in
    let* n' := uadd n 1 in
    exec sstore (set_totalRequests n') in
    let* d := sload totalTokensDistributed in
    let* d' := uadd d tpr in
    exec sstore (set_totalTokensDistributed d') in
    (* Transfer tokens *)
    let* success := token_transfer user tpr in
    exec revert_if (negb success) TransferFailed in
    emit (TokensRequested user tpr))).

(** *** Views *)

Definition getNextRequestTime (user : address) : M World Z :=
  sload (fun st => mget (nextRequestTime st) user).

Definition getRemainingCooldown (env : Env) (user : address) : M World Z :=
  let* nextRequest := sload (fun st => mget (nextRequestTime st) user) in
  if nextRequest <=? block_timestamp env then ret 0
  else usub nextRequest (block_timestamp env).

Definition getDailyUsage (env : Env) (user : address) : M World (Z * Z) :=
  let currentDay := block_timestamp env / ONE_DAY in
  let* lrd := sload (fun st => mget (lastRequestDay st) user) in
  let* requested :=
    (if lrd <? currentDay then ret 0
     else sload (fun st => mget (dailyRequested st) user)) in
  let* maxd := sload maxTokensPerDay in
  let* remaining := (if requested <? maxd then usub maxd requested else ret 0) in
  ret (requested, remaining).

Definition canUserRequest (env : Env) (user : address) : M World (bool * string) :=
  (* Check cooldown *)
  let* nrt := sload (fun st => mget (nextRequestTime st) user) in
  if block_timestamp env <? nrt then ret (false, "Cooldown active"%string)
  else
    (* Check daily limit *)
    let currentDay := block_timestamp env / ONE_DAY in
    let* lrd := sload (fun st => mget (lastRequestDay st) user) in
    let* dailyUsed :=
      (if lrd <? currentDay then ret 0
       else sload (fun st => mget (dailyRequested st) user)) in
    let* tpr := sload tokensPerRequest in
    let* wanted := uadd dailyUsed tpr in
    let* maxd := sload maxTokensPerDay in
    if maxd <? wanted then ret (false, "Daily limit exceeded"%string)
    else
      (* Check faucet balance *)
      let* bal := token_balance in
      if bal <? tpr then ret (false, "Insufficient faucet balance"%string)
      else
        (* Check if paused *)
        let* p := sload paused in
        if p then ret (false, "Faucet is paused"%string)
        else ret (true, ""%string).

Definition getFaucetStats : M World (Z * Z * Z * Z) :=
  let* balance := token_balance in
  let* requests := sload totalRequests in
  let* distributed := sload totalTokensDistributed in
  let* perRequest := sload tokensPerRequest in
  ret (balance, requests, distributed, perRequest).

Definition version : M World string := ret "1.0.0"%string.

(** *** Owner functions *)

Definition updateFaucetConfig (env : Env)
    (_tokensPerRequest _cooldownTime _maxTokensPerDay : Z) : M World unit :=
  onlyOwner env (
    exec revert_if (_tokensPerRequest =? 0) InvalidAmount in
    exec sstore (set_config _tokensPerRequest _cooldownTime _maxTokensPerDay
                   _tokensPerRequest) in
    emit (FaucetConfigUpdated _tokensPerRequest _cooldownTime _maxTokensPerDay)).

Definition withdrawTokens (env : Env) (amount : Z) : M World unit :=
  onlyOwner env (
    let* faucetBalance := token_balance in
    let amount := if amount =? 0 then faucetBalance else amount in
    exec revert_if (faucetBalance <? amount) InsufficientFaucetBalance in
    let* o := sload owner in
    let* success := token_transfer o amount in
    exec revert_if (negb success) TransferFailed in
    emit (TokensWithdrawn o amount)).

Definition depositTokens (env : Env) (amount : Z) : M World unit :=
  exec revert_if (amount =? 0) InvalidAmount in
  let* self := gets this in
  let* success := token_transferFrom (msg_sender env) self amount in
  exec revert_if (negb success) TransferFailed in
  emit (TokensDeposited (msg_sender env) amount).

Definition emergencyWithdraw (env : Env) : M World unit :=
  onlyOwner env (
    let* balance := token_balance in
    if 0 <? balance then
      let* o := sload owner in
      let* success := token_transfer o balance in
      exec revert_if (negb success) TransferFailed in
      emit (TokensWithdrawn o balance)
    else ret tt).

Definition pause (env : Env) : M World unit :=
  onlyOwner env (whenNotPaused (
    exec sstore (set_paused true) in
    emit (Paused (msg_sender env)))).

Definition unpause (env : Env) : M World unit :=
  onlyOwner env (whenPaused (
    exec sstore (set_paused false) in
    emit (Unpaused (msg_sender env)))).

Definition resetUserCooldown (env : Env) (user : address) : M World unit :=
  onlyOwner env (sstore (set_nextRequestTime user 0)).

(** Inherited from [Ownable]. *)
Definition transferOwnership (env : Env) (newOwner : address) : M World unit :=
  onlyOwner env (
    exec require (negb (newOwner =? 0)) "Ownable: new owner is the zero address" in
    let* old := sload owner in
    exec sstore (set_owner newOwner) in
    emit (OwnershipTransferred old newOwner)).

Definition renounceOwnership (env : Env) : M World unit :=
  onlyOwner env (
    let* old := sload owner in
    exec sstore (set_owner 0) in
    emit (OwnershipTransferred old 0)).

(** *** Transactions *)

Inductive Op :=
| RequestTokens
| UpdateFaucetConfig (_tokensPerRequest _cooldownTime _maxTokensPerDay : Z)
| WithdrawTokens (amount : Z)
| DepositTokens (amount : Z)
| EmergencyWithdraw
| Pause
| Unpause
| ResetUserCooldown (user : address)
| TransferOwnership (newOwner : address)
| RenounceOwnership.

Definition dispatch (env : Env) (op : Op) : M World unit :=
  match op with
  | RequestTokens => requestTokens env
  | UpdateFaucetConfig a b c => updateFaucetConfig env a b c
  | WithdrawTokens a => withdrawTokens env a
  | DepositTokens a => depositTokens env a
  | EmergencyWithdraw => emergencyWithdraw env
  | Pause => pause env
  | Unpause => unpause env
  | ResetUserCooldown u => resetUserCooldown env u
  | TransferOwnership o => transferOwnership env o
  | RenounceOwnership => renounceOwnership env
  end.

Definition execute (env : Env) (op : Op) (w : World) : World * Receipt unit :=
  transact (dispatch env op) w.

(** A view call returns a value and leaves no trace. *)
Definition call {A} (m : M World A) (w : World) : Receipt A := snd (transact m w).

End Faucet.

Arguments World T : clear implicits.

(** ** A reference token

    The faucet only sees the token through [IERC20].  [Ledger] is a plain
    balance-and-allowance ledger to run the contract against: transfers
    throw on insufficient balance or allowance, and a halted ledger
    refuses every transfer by returning [false]. *)

Record Ledger := mkLedger {
  balances : gmap Z Z;
  allowances : gmap (Z * Z) Z;
  halted : bool
}.

Definition move (from to : address) (amount : Z) (b : gmap Z Z) : gmap Z Z :=
  let b' := <[from := mget b from - amount]> b in
  <[to := mget b' to + amount]> b'.

Definition ledger_transfer (l : Ledger) (sender to : address) (amount : Z)
    : call_result Ledger bool :=
  if halted l then Returned l false
  else if mget (balances l) sender <? amount then Threw
  else Returned (mkLedger (move sender to amount (balances l)) (allowances l) false) true.

Definition ledger_transferFrom (l : Ledger) (spender from to : address) (amount : Z)
    : call_result Ledger bool :=
  let allowed := default 0 (allowances l !! (from, spender)) in
  if halted l then Returned l false
  else if (allowed <? amount) || (mget (balances l) from <? amount) then Threw
  else Returned (mkLedger (move from to amount (balances l))
                   (<[(from, spender) := allowed - amount]> (allowances l)) false) true.

#[export] Instance Ledger_IERC20 : IERC20 Ledger := {
  balanceOf l a := mget (balances l) a;
  transfer := ledger_transfer;
  transferFrom := ledger_transferFrom
}.

(** Accounts of the scenarios. *)
Definition deployer : address := 1000.
Definition faucet_address : address := 2000.
Definition token_address : address := 3000.
Definition alice : address := 4000.

Definition funded (pool : Z) : Ledger :=
  mkLedger {[ faucet_address := pool ]} ∅ false.

Definition at_time (who : address) (t : Z) : Env := mkEnv who t.


(** ** The transaction read off the state

    [claim_error] lists the reasons [requestTokens] has to abort, in the
    order the code meets them; [claimed] is the state a claim leaves
    behind; [store_after] lists the storage writes of every function.
    [execute_requestTokens] and [execute_store] below prove that the
    monadic code does exactly that. *)

Section Model.

Context {T : Type} `{Token : IERC20 T}.

(** The daily usage the limit check sees: [0] once the day has changed. *)
Definition dailyUsed (st : Storage) (user : address) (now : Z) : Z :=
  if mget (lastRequestDay st) user <? now / ONE_DAY then 0
  else mget (dailyRequested st) user.

Definition rollover (user : address) (now : Z) (st : Storage) : Storage :=
  if mget (lastRequestDay st) user <? now / ONE_DAY
  then set_lastRequestDay user (now / ONE_DAY) (set_dailyRequested user 0 st)
  else st.

Definition claim_error (env : Env) (w : World T) : option Error :=
  let st := store w in
  let user := msg_sender env in
  let now := block_timestamp env in
  let used := dailyUsed st user now in
  let tpr := tokensPerRequest st in
  if entered st then Some (RequireFailed "ReentrancyGuard: reentrant call")
  else if paused st then Some (RequireFailed "Pausable: paused")
  else if now <? mget (nextRequestTime st) user
    then Some (CooldownActive (mget (nextRequestTime st) user - now))
  else if UINT256_MOD <=? used + tpr then Some (Panic ARITHMETIC)
  else if maxTokensPerDay st <? used + tpr
    then (if used <=? maxTokensPerDay st
          then Some (DailyLimitExceeded (maxTokensPerDay st - used))
          else Some (Panic ARITHMETIC))
  else if balanceOf (token w) (this w) <? tpr then Some InsufficientFaucetBalance
  else if UINT256_MOD <=? now + cooldownTime st then Some (Panic ARITHMETIC)
  else if UINT256_MOD <=? totalRequests st + 1 then Some (Panic ARITHMETIC)
  else if UINT256_MOD <=? totalTokensDistributed st + tpr then Some (Panic ARITHMETIC)
  else match transfer (token w) (this w) user tpr with
       | Threw => Some TokenReverted
       | Returned _ false => Some TransferFailed
       | Returned _ true => None
       end.

Definition claimed (env : Env) (w : World T) : World T :=
  let st := store w in
  let user := msg_sender env in
  let now := block_timestamp env in
  let tpr := tokensPerRequest st in
  mkWorld (this w)
    (set_totalTokensDistributed (totalTokensDistributed st + tpr)
       (set_totalRequests (totalRequests st + 1)
          (set_dailyRequested user (dailyUsed st user now + tpr)
             (set_nextRequestTime user (now + cooldownTime st)
                (rollover user now st)))))
    (match transfer (token w) (this w) user tpr with
     | Returned t' _ => t'
     | Threw => token w
     end)
    (logs w ++ [TokensRequested user tpr]).

Definition NOT_OWNER : Error := RequireFailed "Ownable: caller is not the owner".

(** No transaction but a claim or an owner call writes the storage;
    [store_after] lists the writes of a successful one. *)
Definition store_after (env : Env) (op : Op) (w : World T) : Storage :=
  let st := store w in
  match op with
  | RequestTokens => store (claimed env w)
  | UpdateFaucetConfig a b c => set_config a b c a st
  | WithdrawTokens _ | DepositTokens _ | EmergencyWithdraw => st
  | Pause => set_paused true st
  | Unpause => set_paused false st
  | ResetUserCooldown u => set_nextRequestTime u 0 st
  | TransferOwnership o => set_owner o st
  | RenounceOwnership => set_owner 0 st
  end.

(** *** canUserRequest, in the specification's words

    The checks in the priority order cooldown, daily limit (with lazy
    rollover), pool balance, pause flag, and the reason of the first
    failing one. *)
Definition spec_checks (env : Env) (user : address) (w : World T)
    : list (bool * string) :=
  let st := store w in
  let now := block_timestamp env in
  [ (now <? mget (nextRequestTime st) user, "Cooldown active"%string);
    (maxTokensPerDay st <? dailyUsed st user now + tokensPerRequest st,
       "Daily limit exceeded"%string);
    (balanceOf (token w) (this w) <? tokensPerRequest st,
       "Insufficient faucet balance"%string);
    (paused st, "Faucet is paused"%string) ].

Definition spec_canUserRequest (env : Env) (user : address) (w : World T)
    : bool * string :=
  match List.find fst (spec_checks env user w) with
  | Some (_, reason) => (false, reason)
  | None => (true, ""%string)
  end.

End Model.

(** ** Reachable states *)

Section Reach.

Context {T : Type} `{Token : IERC20 T}.

(** Arguments arrive ABI-decoded: every [uint256] is in range. *)
Definition valid_op (op : Op) : Prop :=
  match op with
  | UpdateFaucetConfig a b c => is_uint256 a /\ is_uint256 b /\ is_uint256 c
  | WithdrawTokens a | DepositTokens a => is_uint256 a
  | _ => True
  end.

(** What a transaction adds to the history of claims: the claimant and
    the amount handed to [xfiToken.transfer], when [requestTokens]
    went through. *)
Definition claim_record (env : Env) (op : Op) (w : World T) : list (address * Z) :=
  match op, snd (execute env op w) with
  | RequestTokens, Success _ => [(msg_sender env, tokensPerRequest (store w))]
  | _, _ => []
  end.

(** [reachable_by allowed h now w]: at time [now] the contract can be in
    state [w], having paid out the claims [h], through transactions the
    predicate [allowed] lets through.  Block timestamps never go back;
    between the faucet's transactions other accounts act on the token. *)
Inductive reachable_by (allowed : World T -> Op -> Prop)
  : list (address * Z) -> Z -> World T -> Prop :=
| reach_deploy env self tok x a b c w :
    is_uint256 (block_timestamp env) ->
    is_uint256 a -> is_uint256 b -> is_uint256 c ->
    constructor env self tok x a b c = Success w ->
    reachable_by allowed [] (block_timestamp env) w
| reach_call h now w env op :
    reachable_by allowed h now w ->
    now <= block_timestamp env -> is_uint256 (block_timestamp env) ->
    valid_op op -> allowed w op ->
    reachable_by allowed (h ++ claim_record env op w) (block_timestamp env)
      (fst (execute env op w))
| reach_token h now w tok' :
    reachable_by allowed h now w ->
    reachable_by allowed h now (with_token tok' w)
| reach_wait h now now' w :
    reachable_by allowed h now w ->
    now <= now' -> is_uint256 now' ->
    reachable_by allowed h now' w.

Definition any_op : World T -> Op -> Prop := fun _ _ => True.

Definition reachable := reachable_by any_op.

(** Transactions that leave the daily cap where it is or raise it. *)
Definition cap_not_lowered (w : World T) (op : Op) : Prop :=
  match op with
  | UpdateFaucetConfig _ _ m => maxTokensPerDay (store w) <= m
  | _ => True
  end.

(** Every transaction but a successful [updateFaucetConfig] whose new cap
    is below the usage some address has for the day of the call. *)
Definition cap_covers_usage (env : Env) (w : World T) (op : Op) : Prop :=
  match op with
  | UpdateFaucetConfig _ _ cap =>
      snd (execute env op w) = Success tt ->
      forall a,
        mget (lastRequestDay (store w)) a = block_timestamp env / ONE_DAY ->
        mget (dailyRequested (store w)) a <= cap
  | _ => True
  end.

(** The states of [reachable_by], reached through transactions that keep
    the cap at or above every usage of the day ([cap_covers_usage], which
    reads the timestamp of the call). *)
Inductive reachable_covering : list (address * Z) -> Z -> World T -> Prop :=
| cover_deploy env self tok x a b c w :
    is_uint256 (block_timestamp env) ->
    is_uint256 a -> is_uint256 b -> is_uint256 c ->
    constructor env self tok x a b c = Success w ->
    reachable_covering [] (block_timestamp env) w
| cover_call h now w env op :
    reachable_covering h now w ->
    now <= block_timestamp env -> is_uint256 (block_timestamp env) ->
    valid_op op -> cap_covers_usage env w op ->
    reachable_covering (h ++ claim_record env op w) (block_timestamp env)
      (fst (execute env op w))
| cover_token h now w tok' :
    reachable_covering h now w ->
    reachable_covering h now (with_token tok' w)
| cover_wait h now now' w :
    reachable_covering h now w ->
    now <= now' -> is_uint256 now' ->
    reachable_covering h now' w.

(** [(user, amount)] was paid out by the token: from a reachable state a
    [requestTokens] of [user] went through, [xfiToken.transfer(user,
    amount)] called by the faucet on the ledger of that state returned
    [true], and the faucet went on with the ledger the call returned. *)
Definition paid_by_transfer (user : address) (amount : Z) : Prop :=
  exists h0 now0 (w0 : World T) env t',
    reachable h0 now0 w0 /\ now0 <= block_timestamp env /\
    msg_sender env = user /\
    snd (execute env RequestTokens w0) = Success tt /\
    transfer (token w0) (this w0) user amount = Returned t' true /\
    token (fst (execute env RequestTokens w0)) = t'.

(** Storage invariants of every reachable state. *)
Record wf_store (st : Storage) : Prop := mkWf {
  wf_entered : entered st = false;
  wf_tpr : 0 <= tokensPerRequest st;
  wf_cooldown : 0 <= cooldownTime st;
  wf_cap : 0 <= maxTokensPerDay st;
  wf_requests : 0 <= totalRequests st;
  wf_distributed : 0 <= totalTokensDistributed st
}.

(** The history of claims adds up to the counters. *)
Fixpoint paid_out (h : list (address * Z)) : Z :=
  match h with
  | [] => 0
  | c :: h => snd c + paid_out h
  end.

End Reach.

(** ** Scenarios on the reference token *)

Module Scenario.

(** The deployment of the ignition module, scaled down: 10 tokens per
    request and a pool of 100. *)
Definition deploy (tok : Ledger) (tpr cd cap : Z) : World Ledger :=
  mkWorld faucet_address
    (mkStorage token_address tpr cd cap tpr ∅ ∅ ∅ 0 0 deployer false false)
    tok [OwnershipTransferred 0 deployer].

(** Alice claims at [t = 0]; the owner lowers the cap to 5 at [t = 30]. *)
Definition lowered_0 : World Ledger := deploy (funded 100) 10 60 20.

Definition lowered_1 : World Ledger :=
  fst (execute (at_time alice 0) RequestTokens lowered_0).

Definition lowered : World Ledger :=
  fst (execute (at_time deployer 30) (UpdateFaucetConfig 10 60 5) lowered_1).

(** A cooldown of [2^256 - 1] seconds, and a pool on a halted ledger. *)
Definition unbounded : World Ledger := deploy (funded 100) 10 MAX_UINT256 10.

Definition refusing : World Ledger :=
  deploy (mkLedger {[ faucet_address := 100 ]} ∅ true) 10 86400 10.

(** A cap of 20 used up by Alice on day 0, lowered to 10 by the owner on
    day 1, and Alice's claim of 10 on day 1. *)
Definition relowered_0 : World Ledger := deploy (funded 100) 20 60 20.

Definition relowered_1 : World Ledger :=
  fst (execute (at_time alice 0) RequestTokens relowered_0).

Definition relowered_2 : World Ledger :=
  fst (execute (at_time deployer 86400) (UpdateFaucetConfig 10 60 10) relowered_1).

Definition relowered : World Ledger :=
  fst (execute (at_time alice 86400) RequestTokens relowered_2).

End Scenario.

(** ** Classes of functions and the event log *)

(** The functions the source guards with [onlyOwner] (the last two are
    inherited from [Ownable]). *)
Definition owner_only (op : Op) : bool :=
  match op with
  | UpdateFaucetConfig _ _ _ | WithdrawTokens _ | EmergencyWithdraw
  | Pause | Unpause | ResetUserCooldown _
  | TransferOwnership _ | RenounceOwnership => true
  | RequestTokens | DepositTokens _ => false
  end.

(** The functions that read or write the pause flag. *)
Definition pause_aware (op : Op) : bool :=
  match op with
  | RequestTokens | Pause | Unpause => true
  | _ => false
  end.

(** The [TokensRequested] records of a log, oldest first. *)
Fixpoint requested_events (l : list Event) : list (address * Z) :=
  match l with
  | [] => []
  | TokensRequested user amount :: l => (user, amount) :: requested_events l
  | _ :: l => requested_events l
  end.

(** ** The client ([frontend/src/app/page.tsx])

    The page's numbers are JavaScript numbers holding integers below
    [2^53], where [+], [-], [%] and [Math.floor(a / b)] are exact: they
    are integers in [Z] here, [%] being the remainder that takes the sign
    of the dividend ([Z.rem]).  A number in a template string prints as
    its decimal digits ([pretty]). *)

Module Frontend.

(** ethers' [BigNumber.toNumber()] throws above 53 bits. *)
Definition MAX_SAFE_INTEGER : Z := 2 ^ 53 - 1.

Definition toNumber (x : Z) : option Z :=
  if x <=? MAX_SAFE_INTEGER then Some x else None.

(** [checkUserCooldown]: the new value of the state [timeUntilNext], from
    the contract's [getNextRequestTime] and the clock [Date.now()] in
    milliseconds.  An exception is caught and logged, and leaves the
    state as it is. *)
Definition checkUserCooldown {T : Type} `{Token : IERC20 T}
    (w : World T) (walletAddress : address) (date_now : Z) (timeUntilNext : Z) : Z :=
  match call (getNextRequestTime walletAddress) w with
  | Success nextRequestTime =>
      match toNumber nextRequestTime with
      | Some n =>
          let currentTime := date_now / 1000 in
          let timeLeft := n - currentTime in
          Z.max 0 timeLeft
      | None => timeUntilNext
      end
  | Failure _ => timeUntilNext
  end.

(** The timer effect, one second later:
    [if (timeUntilNext > 0) setTimeUntilNext(timeUntilNext - 1)]. *)
Definition tick (timeUntilNext : Z) : Z :=
  if 0 <? timeUntilNext then timeUntilNext - 1 else timeUntilNext.

(** The claim button is disabled, and [requestTokens] of the page
    returns early, while [timeUntilNext > 0]. *)
Definition waiting (timeUntilNext : Z) : bool := 0 <? timeUntilNext.

Definition formatTime (seconds : Z) : string :=
  let hours := seconds / 3600 in
  let minutes := Z.rem seconds 3600 / 60 in
  let secs := Z.rem seconds 60 in
  if 0 <? hours then
    pretty hours +:+ "h " +:+ pretty minutes +:+ "m " +:+ pretty secs +:+ "s"
  else if 0 <? minutes then
    pretty minutes +:+ "m " +:+ pretty secs +:+ "s"
  else
    pretty secs +:+ "s".

(** [gasEstimate.mul(120).div(100)] *)
Definition gasLimit (gasEstimate : Z) : Z := gasEstimate * 120 / 100.

(** The decimal digits, to tell the numbers of a displayed time from
    its unit letters. *)
Definition is_digit (c : ascii) : bool :=
  (48 <=? nat_of_ascii c)%nat && (nat_of_ascii c <=? 57)%nat.

Fixpoint all_digits (s : string) : bool :=
  match s with
  | EmptyString => true
  | String c s => is_digit c && all_digits s
  end.

End Frontend.

(** * Proofs *)

(** ** Proof automation *)

Ltac split_if :=
  match goal with
  | |- context [if ?a <? ?b then _ else _] => destruct (Z.ltb_spec a b); cbn
  | |- context [if ?a <=? ?b then _ else _] => destruct (Z.leb_spec a b); cbn
  | |- context [if ?a =? ?b then _ else _] => destruct (Z.eqb_spec a b); cbn
  | |- context [match transfer ?t ?a ?b ?c with _ => _ end] =>
      destruct (transfer t a b c) as [? []|]; cbn
  | |- context [match transferFrom ?t ?a ?b ?c ?d with _ => _ end] =>
      destruct (transferFrom t a b c d) as [? []|]; cbn
  | |- context [if negb ?b then _ else _] => destruct b eqn:?; cbn
  | |- context [if ?b then _ else _] =>
      lazymatch type of b with bool => destruct b eqn:?; cbn end
  end; try lia; try reflexivity.

Ltac evm_unfold :=
  unfold execute, call, dispatch, transact,
    requestTokens, canUserRequest, getFaucetStats, getDailyUsage,
    getRemainingCooldown, getNextRequestTime,
    updateFaucetConfig, withdrawTokens, depositTokens, emergencyWithdraw,
    pause, unpause, resetUserCooldown, transferOwnership, renounceOwnership,
    nonReentrant, whenNotPaused, whenPaused, onlyOwner,
    token_balance, token_transfer, token_transferFrom, emit, sload, sstore,
    revert_if, require, uadd, usub, bind, ret, revert, gets, modify.

(** Reduce record projections, and nothing else. *)
Ltac fields :=
  cbn [store this token logs msg_sender block_timestamp
       xfiToken tokensPerRequest cooldownTime maxTokensPerDay minTokenBalance
       nextRequestTime dailyRequested lastRequestDay totalRequests
       totalTokensDistributed owner paused entered
       set_nextRequestTime set_dailyRequested set_lastRequestDay
       set_totalRequests set_totalTokensDistributed
       balances allowances halted].

(** ** The closed forms are what the code computes *)

Section ModelFacts.

Context {T : Type} `{Token : IERC20 T}.

Lemma mget_insert_eq (m : gmap Z Z) a v : mget (<[a := v]> m) a = v.
Proof. unfold mget. by rewrite lookup_insert_eq. Qed.

Lemma mget_insert_ne (m : gmap Z Z) a b v :
  a <> b -> mget (<[a := v]> m) b = mget m b.
Proof. intros Hab. unfold mget. by rewrite lookup_insert_ne. Qed.

Lemma mget_empty a : mget ∅ a = 0.
Proof. reflexivity. Qed.

Lemma transact_failure {S A} (m : M S A) (s s' : S) (e : Error) :
  transact m s = (s', Failure e) -> s' = s.
Proof. unfold transact. destruct (m s); congruence. Qed.

Lemma execute_requestTokens env w :
  execute env RequestTokens w =
  match claim_error env w with
  | Some e => (w, Failure e)
  | None => (claimed env w, Success tt)
  end.
Proof.
  destruct w as [self st tok lg], env as [user now].
  destruct st as [x tpr cd maxd minb nrt dr lrd n d o p e].
  unfold claim_error, claimed, dailyUsed, rollover.
  evm_unfold. cbn.
  destruct e; cbn; [reflexivity|].
  destruct p; cbn; [reflexivity|].
  split_if. { split_if. }
  split_if; rewrite ?mget_insert_eq; repeat (split_if; rewrite ?mget_insert_eq).
Qed.

Lemma execute_updateFaucetConfig env a b c w :
  execute env (UpdateFaucetConfig a b c) w =
  if owner (store w) =? msg_sender env then
    if a =? 0 then (w, Failure InvalidAmount)
    else (mkWorld (this w) (set_config a b c a (store w)) (token w)
            (logs w ++ [FaucetConfigUpdated a b c]), Success tt)
  else (w, Failure NOT_OWNER).
Proof. evm_unfold. cbn. repeat split_if. Qed.

Lemma execute_resetUserCooldown env user w :
  execute env (ResetUserCooldown user) w =
  if owner (store w) =? msg_sender env
  then (with_store (set_nextRequestTime user 0) w, Success tt)
  else (w, Failure NOT_OWNER).
Proof. evm_unfold. cbn. repeat split_if. Qed.

Lemma execute_withdrawTokens env amount w :
  execute env (WithdrawTokens amount) w =
  let faucetBalance := balanceOf (token w) (this w) in
  let amount := if amount =? 0 then faucetBalance else amount in
  if owner (store w) =? msg_sender env then
    if faucetBalance <? amount then (w, Failure InsufficientFaucetBalance)
    else match transfer (token w) (this w) (owner (store w)) amount with
         | Returned t' true =>
             (mkWorld (this w) (store w) t'
                (logs w ++ [TokensWithdrawn (owner (store w)) amount]), Success tt)
         | Returned _ false => (w, Failure TransferFailed)
         | Threw => (w, Failure TokenReverted)
         end
  else (w, Failure NOT_OWNER).
Proof. evm_unfold. cbn. repeat split_if. Qed.

Lemma execute_store env op w :
  match snd (execute env op w) with
  | Success _ => store (fst (execute env op w)) = store_after env op w
  | Failure _ => fst (execute env op w) = w
  end.
Proof.
  destruct op.
  - rewrite execute_requestTokens. by destruct (claim_error env w).
  - rewrite execute_updateFaucetConfig. repeat split_if.
  - rewrite execute_withdrawTokens. cbn. repeat split_if.
  - evm_unfold. cbn. repeat split_if.
  - evm_unfold. cbn. repeat split_if.
  - evm_unfold. cbn. repeat split_if.
  - evm_unfold. cbn. repeat split_if.
  - rewrite execute_resetUserCooldown. repeat split_if.
  - evm_unfold. cbn. repeat split_if.
  - evm_unfold. cbn. repeat split_if.
Qed.

Lemma call_canUserRequest env user w :
  call (canUserRequest env user) w =
  let st := store w in
  let now := block_timestamp env in
  let used := dailyUsed st user now in
  if now <? mget (nextRequestTime st) user then Success (false, "Cooldown active"%string)
  else if UINT256_MOD <=? used + tokensPerRequest st then Failure (Panic ARITHMETIC)
  else if maxTokensPerDay st <? used + tokensPerRequest st
    then Success (false, "Daily limit exceeded"%string)
  else if balanceOf (token w) (this w) <? tokensPerRequest st
    then Success (false, "Insufficient faucet balance"%string)
  else if paused st then Success (false, "Faucet is paused"%string)
  else Success (true, ""%string).
Proof.
  unfold dailyUsed. evm_unfold. cbn.
  split_if. split_if; repeat split_if.
Qed.

Lemma call_getFaucetStats w :
  call getFaucetStats w =
  Success (balanceOf (token w) (this w), totalRequests (store w),
           totalTokensDistributed (store w), tokensPerRequest (store w)).
Proof. reflexivity. Qed.

End ModelFacts.

(** ** Reachability *)

Section ReachFacts.

Context {T : Type} `{Token : IERC20 T}.

Lemma reach_call_eq allowed h h' now w w' env op :
  reachable_by allowed h now w ->
  now <= block_timestamp env -> is_uint256 (block_timestamp env) ->
  valid_op op -> allowed w op ->
  h' = h ++ claim_record env op w -> w' = fst (execute env op w) ->
  reachable_by allowed h' (block_timestamp env) w'.
Proof. intros ? ? ? ? ? -> ->. by eapply reach_call. Qed.

Lemma reachable_by_any allowed h now w :
  reachable_by allowed h now w -> reachable h now w.
Proof.
  induction 1 as [env self tok x a b c w| | |].
  - apply (reach_deploy _ env self tok x a b c); assumption.
  - eapply reach_call; try eassumption. exact I.
  - by apply reach_token.
  - eapply reach_wait; eassumption.
Qed.

Lemma store_after_wf env op w :
  valid_op op -> wf_store (store w) -> wf_store (store_after env op w).
Proof.
  intros Hop [He Ht Hc Hm Hn Hd].
  destruct op; cbn in *; unfold is_uint256 in *;
    try (unfold rollover; destruct (_ <? _)); cbn;
    split; cbn; try assumption; try lia.
Qed.

Lemma execute_wf env op w :
  valid_op op -> wf_store (store w) -> wf_store (store (fst (execute env op w))).
Proof.
  intros Hop Hw. pose proof (execute_store env op w) as Hs.
  destruct (snd (execute env op w)).
  - rewrite Hs. by apply store_after_wf.
  - by rewrite Hs.
Qed.

Lemma reachable_wf allowed h now w :
  reachable_by allowed h now w -> wf_store (store w).
Proof.
  induction 1 as [env self tok x a b c w Ht Ha Hb Hc Hw| | |]; try assumption.
  - unfold constructor in Hw. destruct (x =? 0); [discriminate|].
    injection Hw as <-. unfold is_uint256 in *. split; cbn; lia || reflexivity.
  - by apply execute_wf.
Qed.

End ReachFacts.

(** ** Claims and aborts *)

Section Atomicity.

Context {T : Type} `{Token : IERC20 T}.

(** A claim goes through exactly when no check, no checked addition and
    no token call stands in the way. *)
Lemma claim_error_None env w :
  let st := store w in
  let user := msg_sender env in
  let now := block_timestamp env in
  claim_error env w = None <->
  entered st = false /\ paused st = false /\
  mget (nextRequestTime st) user <= now /\
  dailyUsed st user now + tokensPerRequest st <= maxTokensPerDay st /\
  dailyUsed st user now + tokensPerRequest st < UINT256_MOD /\
  tokensPerRequest st <= balanceOf (token w) (this w) /\
  now + cooldownTime st < UINT256_MOD /\
  totalRequests st + 1 < UINT256_MOD /\
  totalTokensDistributed st + tokensPerRequest st < UINT256_MOD /\
  exists t', transfer (token w) (this w) user (tokensPerRequest st) = Returned t' true.
Proof.
  cbn. unfold claim_error.
  destruct (entered (store w)); [split; [discriminate|intros [? _]; discriminate]|].
  destruct (paused (store w)); [split; [discriminate|intros (_ & ? & _); discriminate]|].
  repeat split_if;
    (split; [try discriminate; intros _; repeat split; try lia; eauto
            |try (intros (_ & _ & ? & ? & ? & ? & ? & ? & ? & t' & ?); lia || congruence)]).
Qed.

(** Whatever makes [requestTokens] fail, the world is as it was. *)
Lemma requestTokens_all_or_nothing env w w' e :
  execute env RequestTokens w = (w', Failure e) -> w' = w.
Proof. apply transact_failure. Qed.

(** The typed error of each failing precondition, checked in order. *)
Lemma requestTokens_typed_aborts env w :
  let st := store w in
  let user := msg_sender env in
  let now := block_timestamp env in
  let used := dailyUsed st user now in
  entered st = false ->
  (paused st = true ->
     execute env RequestTokens w = (w, Failure (RequireFailed "Pausable: paused"))) /\
  (paused st = false -> now < mget (nextRequestTime st) user ->
     execute env RequestTokens w =
       (w, Failure (CooldownActive (mget (nextRequestTime st) user - now)))) /\
  (paused st = false -> mget (nextRequestTime st) user <= now ->
   used + tokensPerRequest st < UINT256_MOD ->
   maxTokensPerDay st < used + tokensPerRequest st -> used <= maxTokensPerDay st ->
     execute env RequestTokens w =
       (w, Failure (DailyLimitExceeded (maxTokensPerDay st - used)))) /\
  (paused st = false -> mget (nextRequestTime st) user <= now ->
   used + tokensPerRequest st <= maxTokensPerDay st ->
   used + tokensPerRequest st < UINT256_MOD ->
   balanceOf (token w) (this w) < tokensPerRequest st ->
     execute env RequestTokens w = (w, Failure InsufficientFaucetBalance)) /\
  (paused st = false -> mget (nextRequestTime st) user <= now ->
   used + tokensPerRequest st <= maxTokensPerDay st ->
   used + tokensPerRequest st < UINT256_MOD ->
   tokensPerRequest st <= balanceOf (token w) (this w) ->
   now + cooldownTime st < UINT256_MOD ->
   totalRequests st + 1 < UINT256_MOD ->
   totalTokensDistributed st + tokensPerRequest st < UINT256_MOD ->
   forall t', transfer (token w) (this w) user (tokensPerRequest st) = Returned t' false ->
     execute env RequestTokens w = (w, Failure TransferFailed)).
Proof.
  cbn. intros He. rewrite execute_requestTokens. unfold claim_error. rewrite He.
  repeat split; intros; repeat (split_if; try congruence).
Qed.

(** When the stored usage is already above the cap, the payload of
    [DailyLimitExceeded] underflows. *)
Lemma requestTokens_underflow env w :
  let st := store w in
  let user := msg_sender env in
  let now := block_timestamp env in
  let used := dailyUsed st user now in
  entered st = false -> paused st = false ->
  mget (nextRequestTime st) user <= now ->
  used + tokensPerRequest st < UINT256_MOD ->
  0 <= tokensPerRequest st ->
  maxTokensPerDay st < used ->
  execute env RequestTokens w = (w, Failure (Panic ARITHMETIC)) /\
  call (canUserRequest env user) w = Success (false, "Daily limit exceeded"%string).
Proof.
  cbn. intros He Hp Hc Ho Ht Hu.
  rewrite execute_requestTokens, call_canUserRequest. unfold claim_error. cbn.
  rewrite He, Hp. split; repeat split_if.
Qed.

Lemma canUserRequest_refines_spec env user w b r :
  call (canUserRequest env user) w = Success (b, r) ->
  (b, r) = spec_canUserRequest env user w.
Proof.
  rewrite call_canUserRequest. unfold spec_canUserRequest, spec_checks. cbn.
  repeat split_if; congruence.
Qed.

Lemma requestTokens_success_iff env w :
  entered (store w) = false ->
  snd (execute env RequestTokens w) = Success tt <->
  call (canUserRequest env (msg_sender env)) w = Success (true, ""%string) /\
  block_timestamp env + cooldownTime (store w) < UINT256_MOD /\
  totalRequests (store w) + 1 < UINT256_MOD /\
  totalTokensDistributed (store w) + tokensPerRequest (store w) < UINT256_MOD /\
  exists t', transfer (token w) (this w) (msg_sender env) (tokensPerRequest (store w))
             = Returned t' true.
Proof.
  intros He. rewrite execute_requestTokens.
  pose proof (claim_error_None env w) as Hn. cbn in Hn.
  rewrite call_canUserRequest. cbn.
  destruct (claim_error env w) as [e|] eqn:Hce.
  - split; [discriminate|]. intros (Hcan & ? & ? & ? & t' & Ht').
    assert (Some e = None) as Hx; [|discriminate].
    apply Hn. revert Hcan. repeat split_if; intros; try discriminate.
    repeat split; try assumption; try lia; eauto.
  - destruct Hn as [Hn _]. destruct (Hn eq_refl) as (_ & Hp & ? & ? & ? & ? & ? & ? & ? & ?).
    split; [intros _|reflexivity]. rewrite Hp.
    repeat split; try assumption. repeat split_if.
Qed.

End Atomicity.

(** ** Invariants *)

Section Invariants.

Context {T : Type} `{Token : IERC20 T}.

(** While the cap is not lowered, nobody's stored usage exceeds it. *)
Lemma usage_within_cap h now w :
  reachable_by cap_not_lowered h now w ->
  forall a, mget (dailyRequested (store w)) a <= maxTokensPerDay (store w).
Proof.
  induction 1 as [env self tok x a b c w Ht Ha Hb Hc Hw
                 |h now w env op Hr IH Hnow Ht Hop Hal| |]; try assumption.
  - unfold constructor in Hw. destruct (x =? 0); [discriminate|].
    injection Hw as <-. intros u. cbn. rewrite mget_empty. unfold is_uint256 in *. lia.
  - intros u. pose proof (execute_store env op w) as Hs.
    destruct (snd (execute env op w)) eqn:Hres; [rewrite Hs|by rewrite Hs].
    destruct op; cbn in *; try apply IH.
    + rewrite execute_requestTokens in Hres.
      destruct (claim_error env w) eqn:Hce; [discriminate|].
      apply claim_error_None in Hce. cbn in Hce.
      destruct Hce as (_ & _ & _ & Hcap & _).
      unfold rollover. destruct (_ <? _); cbn;
        (destruct (Z.eq_dec (msg_sender env) u) as [<-|Hne];
         [by rewrite mget_insert_eq
         |rewrite !mget_insert_ne by assumption; apply IH]).
    + specialize (IH u). lia.
Qed.

Lemma paid_out_app h1 h2 : paid_out (h1 ++ h2) = paid_out h1 + paid_out h2.
Proof. induction h1 as [|c h1 IH]; cbn; lia. Qed.

Lemma totals_match_history allowed h now w :
  reachable_by allowed h now w ->
  totalTokensDistributed (store w) = paid_out h /\
  totalRequests (store w) = Z.of_nat (length h).
Proof.
  induction 1 as [env self tok x a b c w Ht Ha Hb Hc Hw
                 |h now w env op Hr [IHd IHn] Hnow Ht Hop Hal| |]; try assumption.
  - unfold constructor in Hw. destruct (x =? 0); [discriminate|].
    by injection Hw as <-.
  - rewrite paid_out_app, length_app, Nat2Z.inj_add.
    pose proof (execute_store env op w) as Hs. unfold claim_record.
    destruct op; destruct (snd (execute env _ w)); rewrite Hs; cbn; lia.
Qed.

Lemma counters_monotone env op w :
  0 <= tokensPerRequest (store w) ->
  totalRequests (store w) <= totalRequests (store (fst (execute env op w))) /\
  totalTokensDistributed (store w)
    <= totalTokensDistributed (store (fst (execute env op w))).
Proof.
  intros Ht. pose proof (execute_store env op w) as Hs.
  destruct (snd (execute env op w)); rewrite Hs; [|lia].
  destruct op; cbn; lia.
Qed.

(** Days only move forward. *)
Lemma store_after_days env op (w : World T) a :
  mget (lastRequestDay (store_after env op w)) a
  = match op with
    | RequestTokens =>
        if decide (a = msg_sender env)
        then Z.max (mget (lastRequestDay (store w)) a) (block_timestamp env / ONE_DAY)
        else mget (lastRequestDay (store w)) a
    | _ => mget (lastRequestDay (store w)) a
    end.
Proof.
  destruct op; try reflexivity. cbn. unfold rollover.
  destruct (decide (a = msg_sender env)) as [->|Hne];
    destruct (Z.ltb_spec (mget (lastRequestDay (store w)) (msg_sender env))
                (block_timestamp env / ONE_DAY)); cbn;
    rewrite ?mget_insert_eq; try lia.
  by rewrite mget_insert_ne.
Qed.

Lemma days_not_ahead allowed h now (w : World T) :
  reachable_by allowed h now w ->
  0 <= now /\ forall a, mget (lastRequestDay (store w)) a <= now / ONE_DAY.
Proof.
  assert (Hmono : forall x y, 0 <= x <= y -> 0 <= x / ONE_DAY <= y / ONE_DAY).
  { intros x y Hxy. split; [apply Z.div_pos; unfold ONE_DAY; lia|].
    apply Z.div_le_mono; unfold ONE_DAY; lia. }
  induction 1 as [env self tok x a b c w Ht Ha Hb Hc Hw
                 |h now w env op Hr [IH0 IH] Hnow Ht Hop Hal
                 |h now w tok' Hr IH
                 |h now now' w Hr [IH0 IH] Hnow Ht].
  - unfold constructor in Hw. destruct (x =? 0); [discriminate|].
    injection Hw as <-. unfold is_uint256 in Ht. split; [lia|].
    intros u. cbn. rewrite mget_empty. apply (Hmono 0). lia.
  - split; [lia|]. intros u. specialize (IH u).
    pose proof (Hmono now (block_timestamp env) ltac:(lia)) as Hd.
    pose proof (execute_store env op w) as Hs.
    destruct (snd (execute env op w)); rewrite Hs; [|lia].
    rewrite store_after_days. destruct op; try lia.
    destruct (decide (u = msg_sender env)); lia.
  - exact IH.
  - split; [lia|]. intros u. specialize (IH u).
    pose proof (Hmono now now' ltac:(lia)). lia.
Qed.

Lemma reachable_covering_reachable h now (w : World T) :
  reachable_covering h now w -> reachable h now w.
Proof.
  induction 1 as [env self tok x a b c w| | |].
  - apply (reach_deploy _ env self tok x a b c); assumption.
  - eapply reach_call; try eassumption. exact I.
  - by apply reach_token.
  - eapply reach_wait; eassumption.
Qed.

Lemma cover_call_eq h h' now (w w' : World T) env op :
  reachable_covering h now w ->
  now <= block_timestamp env -> is_uint256 (block_timestamp env) ->
  valid_op op -> cap_covers_usage env w op ->
  h' = h ++ claim_record env op w -> w' = fst (execute env op w) ->
  reachable_covering h' (block_timestamp env) w'.
Proof. intros ? ? ? ? ? -> ->. by eapply cover_call. Qed.

(** Never lowering the cap is one way of keeping it above every usage. *)
Lemma not_lowered_covering h now (w : World T) :
  reachable_by cap_not_lowered h now w -> reachable_covering h now w.
Proof.
  induction 1 as [env self tok x a b c w
                 |h now w env op Hr IH Hnow Ht Hop Hal| |].
  - apply (cover_deploy env self tok x a b c); assumption.
  - eapply cover_call; try eassumption.
    destruct op; try exact I. cbn in *. intros _ u _.
    pose proof (usage_within_cap _ _ _ Hr u). lia.
  - by apply cover_token.
  - eapply cover_wait; eassumption.
Qed.

(** The restriction is needed: a successful update to a cap below a
    usage of the day breaks the invariant on the spot. *)
Lemma uncovered_update_breaks (w : World T) env tpr cd cap a :
  snd (execute env (UpdateFaucetConfig tpr cd cap) w) = Success tt ->
  mget (lastRequestDay (store w)) a = block_timestamp env / ONE_DAY ->
  cap < mget (dailyRequested (store w)) a ->
  let w' := fst (execute env (UpdateFaucetConfig tpr cd cap) w) in
  mget (lastRequestDay (store w')) a = block_timestamp env / ONE_DAY /\
  ~ mget (dailyRequested (store w')) a <= maxTokensPerDay (store w').
Proof.
  rewrite execute_updateFaucetConfig.
  destruct (owner (store w) =? msg_sender env); [|discriminate].
  destruct (tpr =? 0); [discriminate|]. cbn. intros _ Hd Hc. split; [exact Hd|lia].
Qed.

(** Every entry of the history was paid out by the token. *)
Lemma history_paid_by_transfer h now (w : World T) :
  reachable h now w ->
  Forall (fun c => paid_by_transfer (fst c) (snd c)) h.
Proof.
  unfold reachable.
  induction 1 as [env self tok x a b c w Ht Ha Hb Hc Hw
                 |h now w env op Hr IH Hnow Ht Hop Hal| |]; try assumption.
  - constructor.
  - apply Forall_app. split; [exact IH|].
    unfold claim_record. destruct op; try constructor.
    destruct (snd (execute env RequestTokens w)) as [[]|e] eqn:Hres; constructor;
      [|constructor].
    cbn [fst snd]. exists h, now, w, env.
    revert Hres. rewrite execute_requestTokens.
    destruct (claim_error env w) eqn:Hce; [discriminate|]. intros _.
    apply claim_error_None in Hce. cbn in Hce.
    destruct Hce as (_ & _ & _ & _ & _ & _ & _ & _ & _ & t' & Htr).
    exists t'. repeat split; try assumption.
    cbn. by rewrite Htr.
Qed.

(** What a [requestTokens] call adds to the history is what it had the
    token transfer. *)
Lemma claim_record_is_the_transfer env (w : World T) :
  match snd (execute env RequestTokens w) with
  | Success _ =>
      exists t',
        transfer (token w) (this w) (msg_sender env) (tokensPerRequest (store w))
          = Returned t' true /\
        token (fst (execute env RequestTokens w)) = t' /\
        claim_record env RequestTokens w
          = [(msg_sender env, tokensPerRequest (store w))]
  | Failure _ =>
      claim_record env RequestTokens w = [] /\
      token (fst (execute env RequestTokens w)) = token w
  end.
Proof.
  unfold claim_record. rewrite execute_requestTokens.
  destruct (claim_error env w) eqn:Hce; [by split|].
  apply claim_error_None in Hce. cbn in Hce.
  destruct Hce as (_ & _ & _ & _ & _ & _ & _ & _ & _ & t' & Htr).
  exists t'. cbn. by rewrite Htr.
Qed.

End Invariants.

(** ** Facts about the scenarios *)

Module ScenarioFacts.

Import Scenario.

Lemma deploy_constructor tok tpr cd cap :
  constructor (at_time deployer 0) faucet_address tok token_address tpr cd cap
  = Success (deploy tok tpr cd cap).
Proof. reflexivity. Qed.

Lemma uint256_small x : 0 <= x <= 1000000 -> is_uint256 x.
Proof. unfold is_uint256, UINT256_MOD. lia. Qed.

Lemma uint256_max : is_uint256 MAX_UINT256.
Proof. unfold is_uint256, MAX_UINT256, UINT256_MOD. lia. Qed.

Lemma reachable_deploy allowed tok tpr cd cap :
  is_uint256 tpr -> is_uint256 cd -> is_uint256 cap ->
  reachable_by allowed [] 0 (deploy tok tpr cd cap).
Proof.
  intros. apply (reach_deploy allowed (at_time deployer 0) faucet_address tok
                   token_address tpr cd cap); trivial.
  apply uint256_small; cbn; lia.
Qed.

Lemma lowered_1_reachable :
  reachable_by cap_not_lowered [(alice, 10)] 0 lowered_1.
Proof.
  apply (reach_call_eq cap_not_lowered [] _ 0 lowered_0 _ (at_time alice 0) RequestTokens);
    try reflexivity.
  - apply reachable_deploy; apply uint256_small; lia.
  - apply uint256_small; cbn; lia.
Qed.

Lemma lowered_reachable : reachable [(alice, 10)] 100 lowered.
Proof.
  apply reach_wait with (now := 30); [|lia|apply uint256_small; lia].
  apply (reach_call_eq any_op [(alice, 10)] _ 0 lowered_1 _ (at_time deployer 30)
           (UpdateFaucetConfig 10 60 5)); try reflexivity.
  - apply reachable_by_any with cap_not_lowered, lowered_1_reachable.
  - cbn; lia.
  - apply uint256_small; cbn; lia.
  - repeat split; apply uint256_small; lia.
Qed.

Lemma unbounded_reachable : reachable [] 1 unbounded.
Proof.
  apply reach_wait with (now := 0); [|lia|apply uint256_small; lia].
  apply reachable_deploy; try (apply uint256_small; lia). apply uint256_max.
Qed.

Lemma refusing_reachable : reachable [] 1 refusing.
Proof.
  apply reach_wait with (now := 0); [|lia|apply uint256_small; lia].
  apply reachable_deploy; apply uint256_small; lia.
Qed.

Lemma relowered_covering :
  reachable_covering [(alice, 20); (alice, 10)] 86400 relowered.
Proof.
  apply (cover_call_eq [(alice, 20)] _ 86400 relowered_2 _ (at_time alice 86400)
           RequestTokens); try reflexivity; try exact I.
  - apply (cover_call_eq [(alice, 20)] _ 0 relowered_1 _ (at_time deployer 86400)
             (UpdateFaucetConfig 10 60 10)); try reflexivity.
    + apply (cover_call_eq [] _ 0 relowered_0 _ (at_time alice 0) RequestTokens);
        try reflexivity; try exact I.
      * apply (cover_deploy (at_time deployer 0) faucet_address (funded 100)
                 token_address 20 60 20); try reflexivity;
          apply uint256_small; cbn; lia.
      * apply uint256_small; cbn; lia.
    + cbn; lia.
    + apply uint256_small; cbn; lia.
    + repeat split; apply uint256_small; lia.
    + intros _ a Ha. exfalso. revert Ha.
      change (mget (lastRequestDay (store relowered_1)) a) with (mget ∅ a).
      rewrite mget_empty. discriminate.
  - apply uint256_small; cbn; lia.
Qed.

(** The reference ledger moves what it is told to. *)
Lemma move_from b from to amt :
  from <> to -> mget (move from to amt b) from = mget b from - amt.
Proof.
  intros Hne. unfold move. rewrite mget_insert_ne by congruence.
  apply mget_insert_eq.
Qed.

Lemma ledger_transfer_ok (l : Ledger) from to amt :
  halted l = false -> amt <= balanceOf l from ->
  transfer l from to amt
  = Returned (mkLedger (move from to amt (balances l)) (allowances l) false) true.
Proof.
  cbn. unfold ledger_transfer. intros -> Hb.
  destruct (Z.ltb_spec (mget (balances l) from) amt); [lia|reflexivity].
Qed.

(** The body of [requestTokens] writes before it reverts: on the day
    after her claim, with the cap lowered to 5, Alice's call resets her
    daily counter and day, then fails the limit check.  The interrupted
    state differs from the initial one; the transaction returns the
    initial one. *)
Lemma revert_discards_writes :
  exists dirty,
    requestTokens (at_time alice 86400) lowered
      = Reverted (DailyLimitExceeded 5) dirty /\
    mget (lastRequestDay (store dirty)) alice = 1 /\
    mget (lastRequestDay (store lowered)) alice = 0 /\
    execute (at_time alice 86400) RequestTokens lowered
      = (lowered, Failure (DailyLimitExceeded 5)).
Proof.
  destruct (requestTokens (at_time alice 86400) lowered) as [|e dirty] eqn:Hrun;
    [by vm_compute in Hrun|].
  exists dirty.
  assert (e = DailyLimitExceeded 5) as -> by (by vm_compute in Hrun; injection Hrun).
  split; [reflexivity|].
  split; [|split; by vm_compute].
  assert (store dirty = store (match requestTokens (at_time alice 86400) lowered with
                               | Reverted _ d => d | Done _ d => d end)) as ->
    by (by rewrite Hrun).
  by vm_compute.
Qed.

End ScenarioFacts.

(** * The claims *)

(** C1 (code defect).  The claim promises the typed error of the failing
    precondition.  In the reachable state [lowered] Alice has used 10 of
    a cap that is now 5: her claim at [t = 100] fails the daily-limit
    check, and the abort is the arithmetic panic of
    [maxTokensPerDay - dailyRequested[user]], not [DailyLimitExceeded];
    the state is untouched all the same. *)
Theorem C1_daily_limit_abort_is_a_panic :
  let w := Scenario.lowered in
  let env := at_time alice 100 in
  reachable [(alice, 10)] 100 w /\
  entered (store w) = false /\ paused (store w) = false /\
  mget (nextRequestTime (store w)) alice <= 100 /\
  maxTokensPerDay (store w) < dailyUsed (store w) alice 100 + tokensPerRequest (store w) /\
  execute env RequestTokens w = (w, Failure (Panic ARITHMETIC)) /\
  (forall left, snd (execute env RequestTokens w) <> Failure (DailyLimitExceeded left)).
Proof.
  cbn zeta. split; [apply ScenarioFacts.lowered_reachable|].
  assert (execute (at_time alice 100) RequestTokens Scenario.lowered
          = (Scenario.lowered, Failure (Panic ARITHMETIC))) as Hx by (by vm_compute).
  rewrite Hx. repeat split; try (by vm_compute).
Qed.

(** C2 (counterexample).  Two reachable states in which [canUserRequest]
    says yes and [requestTokens] fails: with a cooldown of [2^256 - 1]
    the new [nextRequestTime] overflows, and on a halted ledger the
    transfer returns [false]. *)
Lemma C2_counterexample :
  let env := at_time alice 1 in
  (reachable [] 1 Scenario.unbounded /\
   call (canUserRequest env alice) Scenario.unbounded = Success (true, ""%string) /\
   execute env RequestTokens Scenario.unbounded
     = (Scenario.unbounded, Failure (Panic ARITHMETIC))) /\
  (reachable [] 1 Scenario.refusing /\
   call (canUserRequest env alice) Scenario.refusing = Success (true, ""%string) /\
   execute env RequestTokens Scenario.refusing
     = (Scenario.refusing, Failure TransferFailed)).
Proof.
  cbn zeta. split; (split; [|split; by vm_compute]).
  - apply ScenarioFacts.unbounded_reachable.
  - apply ScenarioFacts.refusing_reachable.
Qed.

(** C2 (as amended).  In every reachable state, [requestTokens] by [user]
    succeeds exactly when [canUserRequest user] returns [(true, "")], the
    three checked additions of the update do not overflow and the token's
    [transfer] returns [true]; and whenever [canUserRequest] returns, it
    returns what the specification's priority list says. *)
Theorem C2_canUserRequest_and_requestTokens
    {T : Type} `{Token : IERC20 T} (h : list (address * Z)) (t : Z) (w : World T) :
  reachable h t w ->
  forall (user : address) (now : Z),
  let env := mkEnv user now in
  (snd (execute env RequestTokens w) = Success tt <->
     call (canUserRequest env user) w = Success (true, ""%string) /\
     now + cooldownTime (store w) < UINT256_MOD /\
     totalRequests (store w) + 1 < UINT256_MOD /\
     totalTokensDistributed (store w) + tokensPerRequest (store w) < UINT256_MOD /\
     exists t', transfer (token w) (this w) user (tokensPerRequest (store w))
                = Returned t' true) /\
  (forall b r, call (canUserRequest env user) w = Success (b, r) ->
               (b, r) = spec_canUserRequest env user w).
Proof.
  intros Hr user now env. split.
  - apply (requestTokens_success_iff env w).
    eapply wf_entered, reachable_wf, Hr.
  - intros b r. apply canUserRequest_refines_spec.
Qed.

Lemma C2_witness :
  reachable [(alice, 10)] 100 Scenario.lowered /\
  ((snd (execute (mkEnv alice 100) RequestTokens Scenario.lowered) = Success tt <->
      call (canUserRequest (mkEnv alice 100) alice) Scenario.lowered
        = Success (true, ""%string) /\
      100 + cooldownTime (store Scenario.lowered) < UINT256_MOD /\
      totalRequests (store Scenario.lowered) + 1 < UINT256_MOD /\
      totalTokensDistributed (store Scenario.lowered)
        + tokensPerRequest (store Scenario.lowered) < UINT256_MOD /\
      exists t', transfer (token Scenario.lowered) (this Scenario.lowered) alice
                   (tokensPerRequest (store Scenario.lowered)) = Returned t' true) /\
   (forall b r,
      call (canUserRequest (mkEnv alice 100) alice) Scenario.lowered = Success (b, r) ->
      (b, r) = spec_canUserRequest (mkEnv alice 100) alice Scenario.lowered)).
Proof.
  split.
  - exact ScenarioFacts.lowered_reachable.
  - exact (C2_canUserRequest_and_requestTokens _ _ _ ScenarioFacts.lowered_reachable alice 100).
Defined.

(** C3 (counterexample).  After Alice's claim of 10 the owner lowers the
    cap to 5: on the same day her stored usage is above the cap. *)
Lemma C3_counterexample :
  reachable [(alice, 10)] 100 Scenario.lowered /\
  mget (lastRequestDay (store Scenario.lowered)) alice = 100 / ONE_DAY /\
  ~ (mget (dailyRequested (store Scenario.lowered)) alice
       <= maxTokensPerDay (store Scenario.lowered)).
Proof.
  split; [apply ScenarioFacts.lowered_reachable|]. split; by vm_compute.
Qed.

(** C3 (as amended).  In every state reached by transactions none of
    which is a successful [updateFaucetConfig] with a cap below the usage
    some address has for the day of the call, [dailyRequested[a] <=
    maxTokensPerDay] for every address [a] whose [lastRequestDay[a]] is
    the current day. *)
Theorem C3_daily_usage_within_cap
    {T : Type} `{Token : IERC20 T} (h : list (address * Z)) (now : Z) (w : World T) :
  reachable_covering h now w ->
  forall a, mget (lastRequestDay (store w)) a = now / ONE_DAY ->
            mget (dailyRequested (store w)) a <= maxTokensPerDay (store w).
Proof.
  assert (Hmono : forall x y, 0 <= x <= y -> x / ONE_DAY <= y / ONE_DAY).
  { intros x y Hxy. apply Z.div_le_mono; unfold ONE_DAY; lia. }
  (* the invariant at a later time, for an unchanged storage *)
  assert (Hlater : forall h now (w : World T) now',
            reachable_covering h now w -> now <= now' ->
            (forall a, mget (lastRequestDay (store w)) a = now / ONE_DAY ->
                       mget (dailyRequested (store w)) a <= maxTokensPerDay (store w)) ->
            forall a, mget (lastRequestDay (store w)) a = now' / ONE_DAY ->
                      mget (dailyRequested (store w)) a <= maxTokensPerDay (store w)).
  { intros h0 now0 w0 now' Hr Hle IH a Ha.
    destruct (days_not_ahead _ _ _ _ (reachable_covering_reachable _ _ _ Hr))
      as [H0 Hd].
    specialize (Hd a). pose proof (Hmono now0 now' ltac:(lia)).
    apply IH. lia. }
  induction 1 as [env self tok x a b c w Ht Ha Hb Hc Hw
                 |h now w env op Hr IH Hnow Ht Hop Hal
                 |h now w tok' Hr IH
                 |h now now' w Hr IH Hnow Ht].
  - unfold constructor in Hw. destruct (x =? 0); [discriminate|].
    injection Hw as <-. intros u _. cbn. rewrite mget_empty.
    unfold is_uint256 in *. lia.
  - pose proof (Hlater _ _ _ (block_timestamp env) Hr Hnow IH) as Hold.
    pose proof (execute_store env op w) as Hs.
    destruct (snd (execute env op w)) as [[]|e] eqn:Hres; rewrite Hs;
      [|exact Hold].
    destruct op; cbn in *; try exact Hold.
    + (* requestTokens *)
      rewrite execute_requestTokens in Hres.
      destruct (claim_error env w) eqn:Hce; [discriminate|].
      apply claim_error_None in Hce. cbn in Hce.
      destruct Hce as (_ & _ & _ & Hcap & _).
      intros u. unfold rollover.
      destruct (Z.ltb_spec (mget (lastRequestDay (store w)) (msg_sender env))
                  (block_timestamp env / ONE_DAY)); cbn;
        (destruct (Z.eq_dec (msg_sender env) u) as [<-|Hne];
         [rewrite !mget_insert_eq; intros _; exact Hcap
         |rewrite ?mget_insert_ne by assumption; apply Hold]).
    + (* updateFaucetConfig *)
      intros u Hu. by apply Hal.
  - exact IH.
  - intros u. by apply (Hlater _ _ _ now' Hr Hnow IH).
Qed.

Lemma C3_witness :
  reachable_covering [(alice, 20); (alice, 10)] 86400 Scenario.relowered /\
  mget (lastRequestDay (store Scenario.relowered)) alice = 86400 / ONE_DAY /\
  mget (dailyRequested (store Scenario.relowered)) alice
    <= maxTokensPerDay (store Scenario.relowered).
Proof.
  split; [exact ScenarioFacts.relowered_covering|].
  split; [reflexivity|].
  exact (C3_daily_usage_within_cap _ _ _ ScenarioFacts.relowered_covering alice eq_refl).
Defined.

(** C4.  A reachable state (Alice claimed today, the owner then lowered
    the cap) in which her stored usage exceeds the cap: [requestTokens]
    aborts with the arithmetic panic of the [DailyLimitExceeded] payload,
    while [canUserRequest] answers [(false, "Daily limit exceeded")]. *)
Theorem C4_lowered_cap_underflow :
  exists (h : list (address * Z)) (now : Z) (w : World Ledger) (user : address),
    reachable h now w /\
    mget (lastRequestDay (store w)) user = now / ONE_DAY /\
    maxTokensPerDay (store w) < mget (dailyRequested (store w)) user /\
    execute (mkEnv user now) RequestTokens w = (w, Failure (Panic ARITHMETIC)) /\
    call (canUserRequest (mkEnv user now) user) w
      = Success (false, "Daily limit exceeded"%string).
Proof.
  exists [(alice, 10)], 100, Scenario.lowered, alice.
  split; [apply ScenarioFacts.lowered_reachable|].
  split; [reflexivity|]. split; [reflexivity|].
  apply (requestTokens_underflow (mkEnv alice 100) Scenario.lowered);
    try reflexivity; by vm_compute.
Qed.

(** C5.  Tokens per request 10, cooldown 86400, cap 10, pool 100 on a
    running ledger.  A fresh address [A] claims at [t = 0]: the pool is
    at 90 and [nextRequestTime[A] = 86400].  At [t = 100] the claim fails
    with [CooldownActive(86300)] and changes nothing.  At [t = 86400] the
    day index is 1, the daily counter starts again from 0, the claim goes
    through and the pool is at 80. *)
Theorem C5_cooldown_scenario (A : address) (l : Ledger) :
  A <> faucet_address -> halted l = false -> balanceOf l faucet_address = 100 ->
  let w0 := Scenario.deploy l 10 86400 10 in
  exists w1 w3,
    execute (mkEnv A 0) RequestTokens w0 = (w1, Success tt) /\
    balanceOf (token w1) faucet_address = 90 /\
    mget (nextRequestTime (store w1)) A = 86400 /\
    execute (mkEnv A 100) RequestTokens w1 = (w1, Failure (CooldownActive 86300)) /\
    execute (mkEnv A 86400) RequestTokens w1 = (w3, Success tt) /\
    balanceOf (token w3) faucet_address = 80 /\
    mget (lastRequestDay (store w1)) A < 86400 / ONE_DAY /\
    mget (lastRequestDay (store w3)) A = 86400 / ONE_DAY /\
    mget (dailyRequested (store w3)) A = 10.
Proof.
  intros HA Hh Hb w0.
  pose (l1 := mkLedger (move faucet_address A 10 (balances l)) (allowances l) false).
  pose (l3 := mkLedger (move faucet_address A 10 (balances l1)) (allowances l1) false).
  assert (Ht0 : transfer l faucet_address A 10 = Returned l1 true).
  { apply ScenarioFacts.ledger_transfer_ok; [assumption|lia]. }
  assert (Hb1 : balanceOf l1 faucet_address = 90).
  { change (mget (move faucet_address A 10 (balances l)) faucet_address = 90).
    rewrite ScenarioFacts.move_from by congruence.
    change (balanceOf l faucet_address - 10 = 90). lia. }
  assert (Ht1 : transfer l1 faucet_address A 10 = Returned l3 true).
  { apply ScenarioFacts.ledger_transfer_ok; [reflexivity|lia]. }
  assert (Hb3 : balanceOf l3 faucet_address = 80).
  { change (mget (move faucet_address A 10 (balances l1)) faucet_address = 80).
    rewrite ScenarioFacts.move_from by congruence.
    change (balanceOf l1 faucet_address - 10 = 80). lia. }
  pose (w1 := mkWorld faucet_address
          (mkStorage token_address 10 86400 10 10
             (<[A := 86400]> ∅) (<[A := 10]> ∅) ∅ 1 10 deployer false false)
          l1 [OwnershipTransferred 0 deployer; TokensRequested A 10]).
  pose (w3 := mkWorld faucet_address
          (mkStorage token_address 10 86400 10 10
             (<[A := 172800]> (<[A := 86400]> ∅))
             (<[A := 10]> (<[A := 0]> (<[A := 10]> ∅)))
             (<[A := 1]> ∅) 2 20 deployer false false)
          l3 [OwnershipTransferred 0 deployer; TokensRequested A 10;
              TokensRequested A 10]).
  exists w1, w3.
  assert (H1 : execute (mkEnv A 0) RequestTokens w0 = (w1, Success tt)).
  { rewrite execute_requestTokens.
    unfold claimed, claim_error, rollover, dailyUsed, w0, Scenario.deploy. fields.
    rewrite Ht0, Hb, !mget_empty. reflexivity. }
  assert (H2 : execute (mkEnv A 100) RequestTokens w1
               = (w1, Failure (CooldownActive 86300))).
  { rewrite execute_requestTokens.
    unfold claim_error, w1. fields. rewrite mget_insert_eq. reflexivity. }
  assert (H3 : execute (mkEnv A 86400) RequestTokens w1 = (w3, Success tt)).
  { rewrite execute_requestTokens.
    unfold claimed, claim_error, rollover, dailyUsed, w1. fields.
    rewrite Ht1, Hb1, !mget_insert_eq, !mget_empty. reflexivity. }
  repeat split; try assumption; unfold w1, w3; fields;
    rewrite ?mget_insert_eq, ?mget_empty; reflexivity.
Qed.

Lemma C5_witness :
  alice <> faucet_address /\ halted (funded 100) = false /\
  balanceOf (funded 100) faucet_address = 100 /\
  exists w1 w3,
    execute (mkEnv alice 0) RequestTokens (Scenario.deploy (funded 100) 10 86400 10)
      = (w1, Success tt) /\
    balanceOf (token w1) faucet_address = 90 /\
    mget (nextRequestTime (store w1)) alice = 86400 /\
    execute (mkEnv alice 100) RequestTokens w1 = (w1, Failure (CooldownActive 86300)) /\
    execute (mkEnv alice 86400) RequestTokens w1 = (w3, Success tt) /\
    balanceOf (token w3) faucet_address = 80 /\
    mget (lastRequestDay (store w1)) alice < 86400 / ONE_DAY /\
    mget (lastRequestDay (store w3)) alice = 86400 / ONE_DAY /\
    mget (dailyRequested (store w3)) alice = 10.
Proof.
  assert (Ha : alice <> faucet_address) by discriminate.
  repeat (split; [first [exact Ha | reflexivity]|]).
  exact (C5_cooldown_scenario alice (funded 100) Ha eq_refl eq_refl).
Defined.

(** C6.  For the owner, [updateFaucetConfig] goes through for every
    nonzero [tokensPerRequest], whatever the other two values: it writes
    the three of them and [minTokenBalance = tokensPerRequest].  With
    [tokensPerRequest = 0] it fails with [InvalidAmount] and nothing
    changes.  After [(10, cd, 5)] every claim of an address with no
    usage today, out of cooldown, fails with [DailyLimitExceeded(5)],
    whatever the pool holds. *)
Theorem C6_updateFaucetConfig
    {T : Type} `{Token : IERC20 T} (w : World T) (env : Env) (tpr cd cap : Z) :
  msg_sender env = owner (store w) ->
  (tpr <> 0 ->
     execute env (UpdateFaucetConfig tpr cd cap) w =
       (mkWorld (this w)
          (mkStorage (xfiToken (store w)) tpr cd cap tpr
             (nextRequestTime (store w)) (dailyRequested (store w))
             (lastRequestDay (store w)) (totalRequests (store w))
             (totalTokensDistributed (store w)) (owner (store w))
             (paused (store w)) (entered (store w)))
          (token w) (logs w ++ [FaucetConfigUpdated tpr cd cap]),
        Success tt)) /\
  execute env (UpdateFaucetConfig 0 cd cap) w = (w, Failure InvalidAmount) /\
  (let w' := fst (execute env (UpdateFaucetConfig 10 cd 5) w) in
   snd (execute env (UpdateFaucetConfig 10 cd 5) w) = Success tt /\
   tokensPerRequest (store w') = 10 /\ maxTokensPerDay (store w') = 5 /\
   forall user now,
     entered (store w) = false -> paused (store w) = false ->
     mget (nextRequestTime (store w)) user <= now ->
     dailyUsed (store w) user now = 0 ->
     execute (mkEnv user now) RequestTokens w' = (w', Failure (DailyLimitExceeded 5))).
Proof.
  intros Ho. rewrite !execute_updateFaucetConfig, Ho, Z.eqb_refl. cbn.
  split; [|split; [reflexivity|]].
  - intros Hz. destruct (Z.eqb_spec tpr 0); [contradiction|reflexivity].
  - repeat split. intros user now He Hp Hc Hu.
    rewrite execute_requestTokens. unfold claim_error. cbn.
    change (dailyUsed (set_config 10 cd 5 10 (store w)) user now)
      with (dailyUsed (store w) user now).
    rewrite He, Hp, Hu. unfold UINT256_MOD. repeat split_if.
Qed.

Lemma C6_witness :
  msg_sender (at_time deployer 30) = owner (store Scenario.lowered_1) /\
  10 <> 0 /\
  execute (at_time deployer 30) (UpdateFaucetConfig 10 60 5) Scenario.lowered_1 =
    (mkWorld (this Scenario.lowered_1)
       (mkStorage (xfiToken (store Scenario.lowered_1)) 10 60 5 10
          (nextRequestTime (store Scenario.lowered_1))
          (dailyRequested (store Scenario.lowered_1))
          (lastRequestDay (store Scenario.lowered_1))
          (totalRequests (store Scenario.lowered_1))
          (totalTokensDistributed (store Scenario.lowered_1))
          (owner (store Scenario.lowered_1))
          (paused (store Scenario.lowered_1)) (entered (store Scenario.lowered_1)))
       (token Scenario.lowered_1)
       (logs Scenario.lowered_1 ++ [FaucetConfigUpdated 10 60 5]),
     Success tt).
Proof.
  split; [reflexivity|]. split; [lia|].
  destruct (C6_updateFaucetConfig Scenario.lowered_1 (at_time deployer 30) 10 60 5
              eq_refl) as [Hset _].
  apply Hset. lia.
Defined.

(** C7.  In every reachable state [totalTokensDistributed] is the sum of
    the amounts of the successful claims so far and [totalRequests] their
    number.  Each of these amounts was handed to [xfiToken.transfer] by a
    [requestTokens] call that went through, the transfer returned [true]
    and the faucet kept the ledger it returned; and that is all a
    transaction adds to the history.  No transaction decreases either
    counter; [getFaucetStats] returns the stored values. *)
Theorem C7_statistics
    {T : Type} `{Token : IERC20 T} (h : list (address * Z)) (now : Z) (w : World T) :
  reachable h now w ->
  totalTokensDistributed (store w) = paid_out h /\
  totalRequests (store w) = Z.of_nat (length h) /\
  Forall (fun c => paid_by_transfer (fst c) (snd c)) h /\
  (forall env,
     match snd (execute env RequestTokens w) with
     | Success _ =>
         exists t',
           transfer (token w) (this w) (msg_sender env) (tokensPerRequest (store w))
             = Returned t' true /\
           token (fst (execute env RequestTokens w)) = t' /\
           claim_record env RequestTokens w
             = [(msg_sender env, tokensPerRequest (store w))]
     | Failure _ =>
         claim_record env RequestTokens w = [] /\
         token (fst (execute env RequestTokens w)) = token w
     end) /\
  (forall env op, op <> RequestTokens -> claim_record env op w = []) /\
  (forall env op,
     totalRequests (store w) <= totalRequests (store (fst (execute env op w))) /\
     totalTokensDistributed (store w)
       <= totalTokensDistributed (store (fst (execute env op w)))) /\
  call getFaucetStats w =
    Success (balanceOf (token w) (this w), totalRequests (store w),
             totalTokensDistributed (store w), tokensPerRequest (store w)).
Proof.
  intros Hr. destruct (totals_match_history _ _ _ _ Hr) as [Hd Hn].
  split; [exact Hd|]. split; [exact Hn|].
  split; [exact (history_paid_by_transfer _ _ _ Hr)|].
  split; [intros env; apply claim_record_is_the_transfer|].
  split; [intros env op Hop; by destruct op|].
  split; [|reflexivity].
  intros env op. apply counters_monotone. eapply wf_tpr, reachable_wf, Hr.
Qed.

Lemma C7_witness :
  reachable [(alice, 10)] 100 Scenario.lowered /\
  totalTokensDistributed (store Scenario.lowered) = paid_out [(alice, 10)] /\
  totalRequests (store Scenario.lowered) = Z.of_nat (length [(alice, 10)]) /\
  Forall (fun c => paid_by_transfer (fst c) (snd c)) [(alice, 10)].
Proof.
  split; [exact ScenarioFacts.lowered_reachable|].
  destruct (C7_statistics _ _ _ ScenarioFacts.lowered_reachable)
    as (Hd & Hn & Hpaid & _).
  split; [exact Hd|]. split; [exact Hn|exact Hpaid].
Defined.

(** C8.  For the owner, [resetUserCooldown(A)] writes [nextRequestTime[A] = 0]
    and nothing else.  A later claim of [A] cannot fail on the cooldown,
    and still fails when it would take [A] over the daily cap. *)
Theorem C8_resetUserCooldown
    {T : Type} `{Token : IERC20 T} (w : World T) (env : Env) (A : address) :
  msg_sender env = owner (store w) ->
  let w' := fst (execute env (ResetUserCooldown A) w) in
  snd (execute env (ResetUserCooldown A) w) = Success tt /\
  mget (nextRequestTime (store w')) A = 0 /\
  (forall B, B <> A ->
     mget (nextRequestTime (store w')) B = mget (nextRequestTime (store w)) B) /\
  w' = mkWorld (this w)
         (mkStorage (xfiToken (store w)) (tokensPerRequest (store w))
            (cooldownTime (store w)) (maxTokensPerDay (store w))
            (minTokenBalance (store w))
            (nextRequestTime (store w'))
            (dailyRequested (store w)) (lastRequestDay (store w))
            (totalRequests (store w)) (totalTokensDistributed (store w))
            (owner (store w)) (paused (store w)) (entered (store w)))
         (token w) (logs w) /\
  (forall now left, 0 <= now ->
     snd (execute (mkEnv A now) RequestTokens w') <> Failure (CooldownActive left)) /\
  (forall now, 0 <= now ->
     entered (store w) = false -> paused (store w) = false ->
     maxTokensPerDay (store w) < dailyUsed (store w) A now + tokensPerRequest (store w) ->
     snd (execute (mkEnv A now) RequestTokens w')
       = Failure (DailyLimitExceeded (maxTokensPerDay (store w) - dailyUsed (store w) A now))
     \/ snd (execute (mkEnv A now) RequestTokens w') = Failure (Panic ARITHMETIC)).
Proof.
  intros Ho. rewrite !execute_resetUserCooldown, Ho, Z.eqb_refl. cbn.
  split; [reflexivity|]. split; [apply mget_insert_eq|].
  split; [intros B HB; by apply mget_insert_ne|]. split; [reflexivity|].
  split.
  - intros now left Hnow. rewrite execute_requestTokens. unfold claim_error. cbn.
    rewrite mget_insert_eq.
    repeat (split_if; try discriminate).
  - intros now Hnow He Hp Hcap. rewrite execute_requestTokens. unfold claim_error. cbn.
    rewrite mget_insert_eq, He, Hp.
    change (dailyUsed (set_nextRequestTime A 0 (store w)) A now)
      with (dailyUsed (store w) A now).
    repeat split_if; auto.
Qed.

Lemma C8_witness :
  msg_sender (at_time deployer 30) = owner (store Scenario.lowered_1) /\
  mget (nextRequestTime (store Scenario.lowered_1)) alice = 60 /\
  mget (nextRequestTime
          (store (fst (execute (at_time deployer 30) (ResetUserCooldown alice)
                         Scenario.lowered_1)))) alice = 0.
Proof.
  split; [reflexivity|]. split; [reflexivity|].
  apply (C8_resetUserCooldown Scenario.lowered_1 (at_time deployer 30) alice).
  reflexivity.
Defined.

(** C9.  The constructor fails only on a zero token address, with
    [InvalidAddress].  With a nonzero one it accepts the all-zero
    configuration, which [updateFaucetConfig] then refuses to set. *)
Theorem C9_constructor_accepts_zero_amounts
    {T : Type} `{Token : IERC20 T} (env : Env) (self : address) (tok : T) (x : address) :
  (forall a b c, constructor env self tok 0 a b c = Failure InvalidAddress) /\
  (forall a b c e,
     constructor env self tok x a b c = Failure e -> x = 0 /\ e = InvalidAddress) /\
  (x <> 0 ->
   exists w,
     constructor env self tok x 0 0 0 = Success w /\
     tokensPerRequest (store w) = 0 /\ cooldownTime (store w) = 0 /\
     maxTokensPerDay (store w) = 0 /\ owner (store w) = msg_sender env /\
     forall cd cap,
       execute env (UpdateFaucetConfig 0 cd cap) w = (w, Failure InvalidAmount)).
Proof.
  unfold constructor. split; [reflexivity|]. split.
  - intros a b c e. destruct (Z.eqb_spec x 0); [|discriminate].
    intros [= <-]. by split.
  - intros Hx. destruct (Z.eqb_spec x 0); [contradiction|].
    eexists. split; [reflexivity|]. cbn. repeat split.
    intros cd cap. rewrite execute_updateFaucetConfig. cbn.
    by rewrite Z.eqb_refl.
Qed.

Lemma C9_witness :
  token_address <> 0 /\
  exists w,
    constructor (at_time deployer 0) faucet_address (funded 100) token_address 0 0 0
      = Success w /\
    tokensPerRequest (store w) = 0 /\ cooldownTime (store w) = 0 /\
    maxTokensPerDay (store w) = 0 /\ owner (store w) = deployer /\
    forall cd cap,
      execute (at_time deployer 0) (UpdateFaucetConfig 0 cd cap) w
        = (w, Failure InvalidAmount).
Proof.
  split; [discriminate|].
  destruct (C9_constructor_accepts_zero_amounts
              (at_time deployer 0) faucet_address (funded 100) token_address)
    as (_ & _ & Hok).
  apply Hok. discriminate.
Defined.

(** C10.  [withdrawTokens(0)] by the owner on an empty pool does not fail
    with [InsufficientFaucetBalance]: the amount becomes the balance [0],
    a transfer of [0] to the owner is attempted, and when it returns
    [true] the storage is unchanged and [TokensWithdrawn(owner, 0)] is
    logged. *)
Theorem C10_withdraw_zero_from_empty_pool
    {T : Type} `{Token : IERC20 T} (w : World T) (env : Env) :
  msg_sender env = owner (store w) ->
  balanceOf (token w) (this w) = 0 ->
  snd (execute env (WithdrawTokens 0) w) <> Failure InsufficientFaucetBalance /\
  forall t', transfer (token w) (this w) (owner (store w)) 0 = Returned t' true ->
    execute env (WithdrawTokens 0) w =
      (mkWorld (this w) (store w) t'
         (logs w ++ [TokensWithdrawn (owner (store w)) 0]), Success tt).
Proof.
  intros Ho Hb. rewrite execute_withdrawTokens, Ho, Hb, !Z.eqb_refl. cbn.
  split.
  - by destruct (transfer _ _ _ _) as [? []|].
  - by intros t' ->.
Qed.

Lemma C10_witness :
  let w := Scenario.deploy (funded 0) 10 86400 10 in
  msg_sender (at_time deployer 5) = owner (store w) /\
  balanceOf (token w) (this w) = 0 /\
  execute (at_time deployer 5) (WithdrawTokens 0) w =
    (mkWorld (this w) (store w)
       (mkLedger (move faucet_address deployer 0 (balances (funded 0))) ∅ false)
       (logs w ++ [TokensWithdrawn deployer 0]), Success tt).
Proof.
  cbn zeta. split; [reflexivity|]. split; [reflexivity|].
  apply (C10_withdraw_zero_from_empty_pool
           (Scenario.deploy (funded 0) 10 86400 10) (at_time deployer 5));
    reflexivity.
Defined.

(** * Further properties of the contract *)

Section Views.

Context {T : Type} `{Token : IERC20 T}.

Lemma call_getRemainingCooldown env user (w : World T) :
  call (getRemainingCooldown env user) w
  = Success (Z.max 0 (mget (nextRequestTime (store w)) user - block_timestamp env)).
Proof. evm_unfold. cbn. repeat split_if; f_equal; lia. Qed.

Lemma call_getDailyUsage env user (w : World T) :
  call (getDailyUsage env user) w
  = Success (dailyUsed (store w) user (block_timestamp env),
             Z.max 0 (maxTokensPerDay (store w)
                      - dailyUsed (store w) user (block_timestamp env))).
Proof.
  unfold dailyUsed. evm_unfold. cbn.
  repeat split_if; repeat f_equal; lia.
Qed.

End Views.

Section ViewsAndClaims.

Context {T : Type} `{Token : IERC20 T}.

Lemma remaining_cooldown_error (w : World T) (user : address) (now : Z) :
  entered (store w) = false -> paused (store w) = false ->
  call (getRemainingCooldown (mkEnv user now) user) w
    = Success (Z.max 0 (mget (nextRequestTime (store w)) user - now)) /\
  forall r,
    snd (execute (mkEnv user now) RequestTokens w) = Failure (CooldownActive r) <->
    0 < r /\ call (getRemainingCooldown (mkEnv user now) user) w = Success r.
Proof.
  intros He Hp. rewrite call_getRemainingCooldown. cbn. split; [reflexivity|].
  intros r. rewrite execute_requestTokens. unfold claim_error. cbn. rewrite He, Hp.
  split.
  - repeat (split_if; try discriminate). intros [= <-]. split; [lia|f_equal; lia].
  - intros [Hr [= Hm]]. repeat (split_if; try discriminate); f_equal; f_equal; lia.
Qed.

(** X1.  [getRemainingCooldown] never reverts and returns
    [max(0, nextRequestTime[user] - now)], in every state, paused or
    not; on a faucet that is not paused a claim fails with
    [CooldownActive(r)] exactly when that view returns [r > 0]. *)
Theorem X1_remaining_cooldown_is_the_cooldown_error
    (w : World T) (user : address) (now : Z) :
  call (getRemainingCooldown (mkEnv user now) user) w
    = Success (Z.max 0 (mget (nextRequestTime (store w)) user - now)) /\
  (entered (store w) = false -> paused (store w) = false ->
   forall r,
     snd (execute (mkEnv user now) RequestTokens w) = Failure (CooldownActive r) <->
     0 < r /\ call (getRemainingCooldown (mkEnv user now) user) w = Success r).
Proof.
  split; [apply call_getRemainingCooldown|].
  intros He Hp. by apply remaining_cooldown_error.
Qed.

(** X2.  [getDailyUsage] never reverts, whatever the stored usage and the
    cap: it returns the usage of the current day ([0] once the day has
    changed) and what is left of the cap, [0] when the usage is at or
    above it; the two add up to the cap whenever the usage is within it. *)
Theorem X2_getDailyUsage_total (w : World T) (user : address) (now : Z) :
  exists requested remaining,
    call (getDailyUsage (mkEnv user now) user) w = Success (requested, remaining) /\
    requested = (if mget (lastRequestDay (store w)) user <? now / ONE_DAY
                 then 0 else mget (dailyRequested (store w)) user) /\
    0 <= remaining /\
    (requested <= maxTokensPerDay (store w) ->
       requested + remaining = maxTokensPerDay (store w)) /\
    (maxTokensPerDay (store w) <= requested -> remaining = 0).
Proof.
  rewrite call_getDailyUsage. cbn. eexists _, _. split; [reflexivity|].
  unfold dailyUsed. repeat split; lia.
Qed.

(** X3.  The remaining quota of [getDailyUsage] decides the daily-limit
    check of [requestTokens]: with a positive [tokensPerRequest] that
    fits the quota the claim does not fail on the limit; when it does not
    fit, the claim fails with [DailyLimitExceeded(remaining)], or with
    the arithmetic panic when the usage is already above the cap. *)
Theorem X3_remaining_quota_decides_the_limit
    (w : World T) (user : address) (now : Z) (requested remaining : Z) :
  entered (store w) = false -> paused (store w) = false ->
  mget (nextRequestTime (store w)) user <= now ->
  0 < tokensPerRequest (store w) ->
  requested + tokensPerRequest (store w) < UINT256_MOD ->
  call (getDailyUsage (mkEnv user now) user) w = Success (requested, remaining) ->
  (tokensPerRequest (store w) <= remaining ->
     requested + tokensPerRequest (store w) <= maxTokensPerDay (store w) /\
     forall left,
       snd (execute (mkEnv user now) RequestTokens w) <> Failure (DailyLimitExceeded left)) /\
  (remaining < tokensPerRequest (store w) ->
     execute (mkEnv user now) RequestTokens w
       = (w, Failure (if requested <=? maxTokensPerDay (store w)
                      then DailyLimitExceeded remaining
                      else Panic ARITHMETIC))).
Proof.
  intros He Hp Hc Ht Ho. rewrite call_getDailyUsage. cbn. intros [= <- <-].
  rewrite execute_requestTokens. unfold claim_error. cbn. rewrite He, Hp.
  split; intros Hrem.
  - split; [lia|]. intros left. repeat (split_if; try discriminate).
  - repeat split_if; repeat f_equal; lia.
Qed.

(** X4.  After a successful claim by [A] at time [t] the stored
    [nextRequestTime[A]] is [t + cooldownTime]; until then
    [canUserRequest(A)] answers [(false, "Cooldown active")], a new claim
    fails with [CooldownActive] carrying the seconds left, which is what
    [getRemainingCooldown] returns; from then on the cooldown no longer
    stands in the way. *)
Theorem X4_cooldown_after_a_claim (w : World T) (A : address) (t : Z) :
  snd (execute (mkEnv A t) RequestTokens w) = Success tt ->
  let w' := fst (execute (mkEnv A t) RequestTokens w) in
  let free := t + cooldownTime (store w) in
  call (getNextRequestTime A) w' = Success free /\
  (forall t', t' < free ->
     call (canUserRequest (mkEnv A t') A) w' = Success (false, "Cooldown active"%string) /\
     execute (mkEnv A t') RequestTokens w' = (w', Failure (CooldownActive (free - t'))) /\
     call (getRemainingCooldown (mkEnv A t') A) w' = Success (free - t')) /\
  (forall t', free <= t' ->
     call (getRemainingCooldown (mkEnv A t') A) w' = Success 0 /\
     call (canUserRequest (mkEnv A t') A) w' <> Success (false, "Cooldown active"%string) /\
     forall r, snd (execute (mkEnv A t') RequestTokens w') <> Failure (CooldownActive r)).
Proof.
  rewrite execute_requestTokens.
  destruct (claim_error (mkEnv A t) w) eqn:Hce; [discriminate|]. intros _.
  apply claim_error_None in Hce. cbn in Hce.
  destruct Hce as (He & Hp & _).
  cbn zeta. cbn [fst].
  assert (Hn : mget (nextRequestTime (store (claimed (mkEnv A t) w))) A
               = t + cooldownTime (store w)).
  { cbn. apply mget_insert_eq. }
  assert (He' : entered (store (claimed (mkEnv A t) w)) = false).
  { cbn. unfold rollover. by destruct (_ <? _). }
  assert (Hp' : paused (store (claimed (mkEnv A t) w)) = false).
  { cbn. unfold rollover. by destruct (_ <? _). }
  split; [by (unfold call, transact, getNextRequestTime, sload, gets; cbn [snd]; rewrite Hn)|].
  split.
  - intros t' Ht'. rewrite call_canUserRequest, call_getRemainingCooldown,
      execute_requestTokens. unfold claim_error. cbn zeta.
    cbn [msg_sender block_timestamp]. rewrite Hn, He', Hp'.
    destruct (Z.ltb_spec t' (t + cooldownTime (store w))); [|lia].
    repeat split. f_equal. lia.
  - intros t' Ht'. rewrite call_canUserRequest, call_getRemainingCooldown,
      execute_requestTokens. unfold claim_error. cbn zeta.
    cbn [msg_sender block_timestamp]. rewrite Hn, He', Hp'.
    destruct (Z.ltb_spec t' (t + cooldownTime (store w))); [lia|].
    split; [f_equal; lia|]. split.
    + repeat (split_if; try discriminate).
    + intros r. repeat (split_if; try discriminate).
Qed.

End ViewsAndClaims.

Section ClaimEffects.

Context {T : Type} `{Token : IERC20 T}.

Lemma claim_effects (w : World T) (A : address) (t : Z) :
  snd (execute (mkEnv A t) RequestTokens w) = Success tt ->
  let st := store w in
  let w' := fst (execute (mkEnv A t) RequestTokens w) in
  let st' := store w' in
  (paused st = false /\ mget (nextRequestTime st) A <= t /\
   dailyUsed st A t + tokensPerRequest st <= maxTokensPerDay st /\
   tokensPerRequest st <= balanceOf (token w) (this w)) /\
  (mget (nextRequestTime st') A = t + cooldownTime st /\
   mget (dailyRequested st') A = dailyUsed st A t + tokensPerRequest st /\
   mget (lastRequestDay st') A = Z.max (mget (lastRequestDay st) A) (t / ONE_DAY) /\
   totalRequests st' = totalRequests st + 1 /\
   totalTokensDistributed st' = totalTokensDistributed st + tokensPerRequest st /\
   logs w' = logs w ++ [TokensRequested A (tokensPerRequest st)]) /\
  (forall B, B <> A ->
     mget (nextRequestTime st') B = mget (nextRequestTime st) B /\
     mget (dailyRequested st') B = mget (dailyRequested st) B /\
     mget (lastRequestDay st') B = mget (lastRequestDay st) B) /\
  (tokensPerRequest st' = tokensPerRequest st /\ cooldownTime st' = cooldownTime st /\
   maxTokensPerDay st' = maxTokensPerDay st /\ minTokenBalance st' = minTokenBalance st /\
   xfiToken st' = xfiToken st /\ owner st' = owner st /\ paused st' = paused st /\
   this w' = this w).
Proof.
  rewrite execute_requestTokens.
  destruct (claim_error (mkEnv A t) w) eqn:Hce; [discriminate|]. intros _.
  apply claim_error_None in Hce. cbn in Hce.
  destruct Hce as (He & Hp & Hc & Hcap & _ & Hbal & _).
  cbn zeta. cbn [fst]. split; [by repeat split|].
  unfold claimed, rollover, dailyUsed in *. cbn.
  destruct (Z.ltb_spec (mget (lastRequestDay (store w)) A) (t / ONE_DAY)); cbn.
  - repeat split; rewrite ?mget_insert_eq; try reflexivity; try lia;
      rewrite !mget_insert_ne by congruence; reflexivity.
  - repeat split; rewrite ?mget_insert_eq; try reflexivity; try lia;
      rewrite !mget_insert_ne by congruence; reflexivity.
Qed.

(** X5.  A claim that goes through met every requirement (not paused,
    cooldown over, usage of the day plus [tokensPerRequest] within the
    cap, pool not below [tokensPerRequest]) and writes exactly this:
    the claimant's [nextRequestTime], usage and day; both counters; one
    [TokensRequested] record.  Configuration, owner, pause flag and the
    entries of every other address are as before. *)
Theorem X5_effects_of_a_claim (w : World T) (A : address) (t : Z) :
  snd (execute (mkEnv A t) RequestTokens w) = Success tt ->
  let st := store w in
  let w' := fst (execute (mkEnv A t) RequestTokens w) in
  let st' := store w' in
  (paused st = false /\ mget (nextRequestTime st) A <= t /\
   dailyUsed st A t + tokensPerRequest st <= maxTokensPerDay st /\
   tokensPerRequest st <= balanceOf (token w) (this w)) /\
  (mget (nextRequestTime st') A = t + cooldownTime st /\
   mget (dailyRequested st') A = dailyUsed st A t + tokensPerRequest st /\
   mget (lastRequestDay st') A = Z.max (mget (lastRequestDay st) A) (t / ONE_DAY) /\
   totalRequests st' = totalRequests st + 1 /\
   totalTokensDistributed st' = totalTokensDistributed st + tokensPerRequest st /\
   logs w' = logs w ++ [TokensRequested A (tokensPerRequest st)]) /\
  (forall B, B <> A ->
     mget (nextRequestTime st') B = mget (nextRequestTime st) B /\
     mget (dailyRequested st') B = mget (dailyRequested st) B /\
     mget (lastRequestDay st') B = mget (lastRequestDay st) B) /\
  (tokensPerRequest st' = tokensPerRequest st /\ cooldownTime st' = cooldownTime st /\
   maxTokensPerDay st' = maxTokensPerDay st /\ minTokenBalance st' = minTokenBalance st /\
   xfiToken st' = xfiToken st /\ owner st' = owner st /\ paused st' = paused st /\
   this w' = this w).
Proof. apply claim_effects. Qed.

(** X6.  Right after a successful claim, at the same time,
    [getDailyUsage] of the claimant reports the usage the claim was
    checked against plus [tokensPerRequest], and the rest of the cap. *)
Theorem X6_usage_after_a_claim (w : World T) (A : address) (t : Z) :
  snd (execute (mkEnv A t) RequestTokens w) = Success tt ->
  let w' := fst (execute (mkEnv A t) RequestTokens w) in
  let used := dailyUsed (store w) A t + tokensPerRequest (store w) in
  call (getDailyUsage (mkEnv A t) A) w'
    = Success (used, maxTokensPerDay (store w) - used) /\
  used <= maxTokensPerDay (store w).
Proof.
  rewrite execute_requestTokens.
  destruct (claim_error (mkEnv A t) w) eqn:Hce; [discriminate|]. intros _.
  apply claim_error_None in Hce. cbn in Hce.
  destruct Hce as (_ & _ & _ & Hcap & _).
  cbn zeta. cbn [fst]. split; [|assumption].
  rewrite call_getDailyUsage. cbn [block_timestamp].
  assert (dailyUsed (store (claimed (mkEnv A t) w)) A t
          = dailyUsed (store w) A t + tokensPerRequest (store w)) as ->.
  { unfold claimed, rollover, dailyUsed. cbn.
    destruct (Z.ltb_spec (mget (lastRequestDay (store w)) A) (t / ONE_DAY)); cbn;
      rewrite ?mget_insert_eq.
    - destruct (Z.ltb_spec (t / ONE_DAY) (t / ONE_DAY)); [lia|reflexivity].
    - destruct (Z.ltb_spec (mget (lastRequestDay (store w)) A) (t / ONE_DAY));
        [lia|reflexivity]. }
  assert (maxTokensPerDay (store (claimed (mkEnv A t) w)) = maxTokensPerDay (store w)) as ->.
  { unfold claimed, rollover. cbn. by destruct (_ <? _). }
  f_equal. f_equal. lia.
Qed.

End ClaimEffects.

Section Administration.

Context {T : Type} `{Token : IERC20 T}.

(** X7.  Pausing and unpausing.  For the owner of a faucet that is not
    paused, [pause] succeeds; while paused every claim fails with
    "Pausable: paused" and a second [pause] fails; [unpause] then gives
    back the storage as it was before the pause, with the two records
    [Paused] and [Unpaused] in the log.  [unpause] on a faucet that is
    not paused fails. *)
Theorem X7_pause_unpause_round_trip (w : World T) (o : address) (t1 t2 : Z) :
  owner (store w) = o -> paused (store w) = false ->
  let w1 := fst (execute (mkEnv o t1) Pause w) in
  let w2 := fst (execute (mkEnv o t2) Unpause w1) in
  snd (execute (mkEnv o t1) Pause w) = Success tt /\
  paused (store w1) = true /\
  (entered (store w) = false ->
   forall env, execute env RequestTokens w1
               = (w1, Failure (RequireFailed "Pausable: paused"))) /\
  execute (mkEnv o t2) Pause w1 = (w1, Failure (RequireFailed "Pausable: paused")) /\
  execute (mkEnv o t2) Unpause w = (w, Failure (RequireFailed "Pausable: not paused")) /\
  snd (execute (mkEnv o t2) Unpause w1) = Success tt /\
  store w2 = store w /\ token w2 = token w /\
  logs w2 = logs w ++ [Paused o; Unpaused o].
Proof.
  intros Ho Hp. destruct w as [self st tok lg].
  destruct st as [x tpr cd maxd minb nrt dr lrd n d o' p e]. cbn in Ho, Hp. subst.
  cbn zeta. repeat split.
  - evm_unfold. cbn. by rewrite Z.eqb_refl.
  - evm_unfold. cbn. by rewrite Z.eqb_refl.
  - cbn. intros ->. intros env. rewrite execute_requestTokens.
    evm_unfold. cbn. rewrite Z.eqb_refl. cbn. reflexivity.
  - evm_unfold. cbn. rewrite Z.eqb_refl. cbn. by rewrite Z.eqb_refl.
  - evm_unfold. cbn. by rewrite Z.eqb_refl.
  - evm_unfold. cbn. rewrite Z.eqb_refl. cbn. by rewrite Z.eqb_refl.
  - evm_unfold. cbn. rewrite Z.eqb_refl. cbn. by rewrite Z.eqb_refl.
  - evm_unfold. cbn. rewrite Z.eqb_refl. cbn. by rewrite Z.eqb_refl.
  - evm_unfold. cbn. rewrite Z.eqb_refl. cbn. rewrite Z.eqb_refl. cbn.
    by rewrite <- app_assoc.
Qed.

(** X8.  The pause flag gates [requestTokens] only: every other function
    but [pause] and [unpause] gives the same receipt and makes the same
    changes whether the faucet is paused or not. *)
Theorem X8_pause_gates_claims_only (w : World T) (env : Env) (op : Op) (b : bool) :
  pause_aware op = false ->
  execute env op (with_store (set_paused b) w)
  = (with_store (set_paused b) (fst (execute env op w)), snd (execute env op w)).
Proof.
  intros Hop. destruct op; try discriminate;
    evm_unfold; cbn; repeat split_if.
Qed.

(** X9.  Every function guarded by [onlyOwner] fails with "Ownable:
    caller is not the owner" for any other caller, before anything is
    read or written; [requestTokens] and [depositTokens] never fail with
    that error. *)
Theorem X9_only_owner (w : World T) (env : Env) (op : Op) :
  (owner_only op = true -> msg_sender env <> owner (store w) ->
     execute env op w = (w, Failure NOT_OWNER)) /\
  (owner_only op = false -> snd (execute env op w) <> Failure NOT_OWNER).
Proof.
  split.
  - intros Hop Hne. destruct op; try discriminate;
      evm_unfold; cbn;
      (destruct (Z.eqb_spec (owner (store w)) (msg_sender env)); [congruence|reflexivity]).
  - intros Hop. destruct op; try discriminate.
    + rewrite execute_requestTokens. unfold claim_error, NOT_OWNER.
      repeat (split_if; try discriminate).
    + evm_unfold. cbn. unfold NOT_OWNER. repeat (split_if; try discriminate).
Qed.

(** X10.  [emergencyWithdraw] by the owner: on an empty pool it succeeds
    without calling the token, logging nothing and changing nothing; on a
    pool that holds tokens it does exactly what [withdrawTokens(0)] and
    [withdrawTokens(balance)] do. *)
Theorem X10_emergencyWithdraw (w : World T) (env : Env) :
  msg_sender env = owner (store w) ->
  (balanceOf (token w) (this w) = 0 ->
     execute env EmergencyWithdraw w = (w, Success tt)) /\
  (0 < balanceOf (token w) (this w) ->
     execute env EmergencyWithdraw w = execute env (WithdrawTokens 0) w /\
     execute env EmergencyWithdraw w
       = execute env (WithdrawTokens (balanceOf (token w) (this w))) w).
Proof.
  intros Ho. rewrite !execute_withdrawTokens. cbn zeta.
  evm_unfold. cbn. rewrite Ho, !Z.eqb_refl. cbn.
  split; intros Hb.
  - rewrite Hb. cbn. by destruct w.
  - destruct (Z.ltb_spec 0 (balanceOf (token w) (this w))); [|lia].
    destruct (Z.eqb_spec (balanceOf (token w) (this w)) 0); [lia|].
    destruct (Z.ltb_spec (balanceOf (token w) (this w)) (balanceOf (token w) (this w)));
      [lia|].
    cbn. split; repeat split_if.
Qed.

(** X11.  [withdrawTokens(amount)] by the owner with a nonzero amount
    fails with [InsufficientFaucetBalance] exactly when the amount is
    above the pool's balance; otherwise the token's [transfer] of that
    amount to the owner decides; and whatever the outcome the faucet's
    storage is untouched. *)
Theorem X11_withdrawTokens (w : World T) (env : Env) (amount : Z) :
  msg_sender env = owner (store w) -> amount <> 0 ->
  (snd (execute env (WithdrawTokens amount) w) = Failure InsufficientFaucetBalance
   <-> balanceOf (token w) (this w) < amount) /\
  (amount <= balanceOf (token w) (this w) ->
   forall t', transfer (token w) (this w) (owner (store w)) amount = Returned t' true ->
     execute env (WithdrawTokens amount) w
     = (mkWorld (this w) (store w) t'
          (logs w ++ [TokensWithdrawn (owner (store w)) amount]), Success tt)) /\
  store (fst (execute env (WithdrawTokens amount) w)) = store w.
Proof.
  intros Ho Ha. rewrite !execute_withdrawTokens. cbn zeta.
  rewrite Ho, Z.eqb_refl.
  destruct (Z.eqb_spec amount 0); [contradiction|].
  repeat split.
  - repeat (split_if; try discriminate).
  - intros Hlt. repeat split_if.
  - intros Hle t' ->. repeat split_if.
  - repeat split_if.
Qed.

(** X12.  [depositTokens] is open to every caller and works while
    paused.  A zero amount fails with [InvalidAmount] before the token is
    called.  For a nonzero amount the token's [transferFrom(caller,
    faucet, amount)] decides: [true] logs [TokensDeposited] and changes
    nothing but the token ledger, [false] fails with [TransferFailed].
    The faucet's storage is untouched in every case. *)
Theorem X12_depositTokens (w : World T) (env : Env) (amount : Z) :
  execute env (DepositTokens 0) w = (w, Failure InvalidAmount) /\
  (amount <> 0 ->
   (forall t', transferFrom (token w) (this w) (msg_sender env) (this w) amount
               = Returned t' true ->
      execute env (DepositTokens amount) w
      = (mkWorld (this w) (store w) t'
           (logs w ++ [TokensDeposited (msg_sender env) amount]), Success tt)) /\
   (forall t', transferFrom (token w) (this w) (msg_sender env) (this w) amount
               = Returned t' false ->
      execute env (DepositTokens amount) w = (w, Failure TransferFailed))) /\
  store (fst (execute env (DepositTokens amount) w)) = store w.
Proof.
  evm_unfold. cbn. split; [reflexivity|]. split.
  - intros Ha. destruct (Z.eqb_spec amount 0); [contradiction|]. cbn.
    split; intros t' ->; reflexivity.
  - repeat split_if.
Qed.

End Administration.

Section MoreInvariants.

Context {T : Type} `{Token : IERC20 T}.

(** X13.  No address's [lastRequestDay] is ever ahead of the current day:
    in every reachable state it is at most [now / 86400], so the usage of
    an address counts for today exactly when its [lastRequestDay] is
    today, and [getDailyUsage] reports the stored [dailyRequested] then
    and [0] otherwise. *)
Theorem X13_days_not_ahead (h : list (address * Z)) (now : Z) (w : World T) :
  reachable h now w ->
  forall a,
    mget (lastRequestDay (store w)) a <= now / ONE_DAY /\
    exists remaining,
      call (getDailyUsage (mkEnv a now) a) w
      = Success (if mget (lastRequestDay (store w)) a =? now / ONE_DAY
                 then mget (dailyRequested (store w)) a else 0, remaining).
Proof.
  intros Hr a. destruct (days_not_ahead _ _ _ _ Hr) as [_ Hd]. specialize (Hd a).
  split; [assumption|]. rewrite call_getDailyUsage. eexists. unfold dailyUsed. cbn.
  repeat f_equal.
  destruct (Z.ltb_spec (mget (lastRequestDay (store w)) a) (now / ONE_DAY)),
           (Z.eqb_spec (mget (lastRequestDay (store w)) a) (now / ONE_DAY));
    try reflexivity; lia.
Qed.

Lemma requested_events_app l1 l2 :
  requested_events (l1 ++ l2) = requested_events l1 ++ requested_events l2.
Proof.
  induction l1 as [|e l1 IH]; [reflexivity|].
  destruct e; cbn; by rewrite ?IH.
Qed.

Lemma execute_requested_events env op (w : World T) :
  requested_events (logs (fst (execute env op w)))
  = requested_events (logs w) ++ claim_record env op w.
Proof.
  unfold claim_record. destruct op.
  - rewrite execute_requestTokens. destruct (claim_error env w); cbn.
    + by rewrite app_nil_r.
    + by rewrite requested_events_app.
  - evm_unfold; cbn; repeat split_if; cbn;
      rewrite ?requested_events_app, ?app_nil_r; reflexivity.
  - evm_unfold; cbn; repeat split_if; cbn;
      rewrite ?requested_events_app, ?app_nil_r; reflexivity.
  - evm_unfold; cbn; repeat split_if; cbn;
      rewrite ?requested_events_app, ?app_nil_r; reflexivity.
  - evm_unfold; cbn; repeat split_if; cbn;
      rewrite ?requested_events_app, ?app_nil_r; reflexivity.
  - evm_unfold; cbn; repeat split_if; cbn;
      rewrite ?requested_events_app, ?app_nil_r; reflexivity.
  - evm_unfold; cbn; repeat split_if; cbn;
      rewrite ?requested_events_app, ?app_nil_r; reflexivity.
  - evm_unfold; cbn; repeat split_if; cbn;
      rewrite ?requested_events_app, ?app_nil_r; reflexivity.
  - evm_unfold; cbn; repeat split_if; cbn;
      rewrite ?requested_events_app, ?app_nil_r; reflexivity.
  - evm_unfold; cbn; repeat split_if; cbn;
      rewrite ?requested_events_app, ?app_nil_r; reflexivity.
Qed.

Lemma log_is_history allowed h now (w : World T) :
  reachable_by allowed h now w -> requested_events (logs w) = h.
Proof.
  induction 1 as [env self tok x a b c w Ht Ha Hb Hc Hw
                 |h now w env op Hr IH Hnow Ht Hop Hal| |]; try assumption.
  - unfold constructor in Hw. destruct (x =? 0); [discriminate|].
    by injection Hw as <-.
  - by rewrite execute_requested_events, IH.
Qed.

(** X14.  The log tells the statistics: in every reachable state the
    [TokensRequested] records of the log are, in order, the successful
    claims; there are [totalRequests] of them and their amounts add up
    to [totalTokensDistributed].  A failed transaction adds no record. *)
Theorem X14_log_matches_counters (h : list (address * Z)) (now : Z) (w : World T) :
  reachable h now w ->
  requested_events (logs w) = h /\
  totalRequests (store w) = Z.of_nat (length (requested_events (logs w))) /\
  totalTokensDistributed (store w) = paid_out (requested_events (logs w)) /\
  forall env op e, snd (execute env op w) = Failure e ->
                   logs (fst (execute env op w)) = logs w.
Proof.
  intros Hr. rewrite (log_is_history _ _ _ _ Hr).
  destruct (totals_match_history _ _ _ _ Hr) as [Hd Hn].
  repeat split; try assumption.
  intros env op e He. pose proof (execute_store env op w) as Hs.
  rewrite He in Hs. by rewrite Hs.
Qed.

Lemma config_kept allowed h now (w : World T) :
  reachable_by allowed h now w ->
  minTokenBalance (store w) = tokensPerRequest (store w) /\ xfiToken (store w) <> 0.
Proof.
  induction 1 as [env self tok x a b c w Ht Ha Hb Hc Hw
                 |h now w env op Hr [IHm IHx] Hnow Ht Hop Hal| |]; try assumption.
  - unfold constructor in Hw. destruct (Z.eqb_spec x 0); [discriminate|].
    by injection Hw as <-.
  - pose proof (execute_store env op w) as Hs.
    destruct (snd (execute env op w)); rewrite Hs; [|by split].
    destruct op; cbn; try (by split);
      unfold rollover; destruct (_ <? _); by split.
Qed.

(** X15.  In every reachable state [minTokenBalance] equals
    [tokensPerRequest] and the token address is not zero; no transaction
    changes the token address. *)
Theorem X15_configuration_invariants (h : list (address * Z)) (now : Z) (w : World T) :
  reachable h now w ->
  minTokenBalance (store w) = tokensPerRequest (store w) /\
  xfiToken (store w) <> 0 /\
  forall env op, xfiToken (store (fst (execute env op w))) = xfiToken (store w).
Proof.
  intros Hr. destruct (config_kept _ _ _ _ Hr) as [Hm Hx].
  repeat split; try assumption.
  intros env op. pose proof (execute_store env op w) as Hs.
  destruct (snd (execute env op w)); rewrite Hs; [|reflexivity].
  destruct op; cbn; try reflexivity. unfold rollover. by destruct (_ <? _).
Qed.

End MoreInvariants.

Section DailyQuota.

Context {T : Type} `{Token : IERC20 T}.

(** X16.  The daily cap outlasts a cooldown reset, and ends with the day.
    After a successful claim by [A] that leaves less than
    [tokensPerRequest] of the cap, the owner resets [A]'s cooldown: a new
    claim by [A] on the same day still fails, with
    [DailyLimitExceeded(what is left)].  On a later day the usage counts
    as [0] again and the limit no longer stops a claim that fits the
    cap. *)
Theorem X16_cap_outlasts_cooldown_reset
    (w : World T) (A : address) (t t' : Z) (env_owner : Env) :
  snd (execute (mkEnv A t) RequestTokens w) = Success tt ->
  let w1 := fst (execute (mkEnv A t) RequestTokens w) in
  let w2 := fst (execute env_owner (ResetUserCooldown A) w1) in
  let used := dailyUsed (store w) A t + tokensPerRequest (store w) in
  msg_sender env_owner = owner (store w1) ->
  0 <= t' -> 0 <= tokensPerRequest (store w) ->
  used + tokensPerRequest (store w) < UINT256_MOD ->
  (t' / ONE_DAY = t / ONE_DAY ->
   maxTokensPerDay (store w) < used + tokensPerRequest (store w) ->
     execute (mkEnv A t') RequestTokens w2
     = (w2, Failure (DailyLimitExceeded (maxTokensPerDay (store w) - used)))) /\
  (Z.max (mget (lastRequestDay (store w)) A) (t / ONE_DAY) < t' / ONE_DAY ->
     call (getDailyUsage (mkEnv A t') A) w2
       = Success (0, Z.max 0 (maxTokensPerDay (store w))) /\
     (tokensPerRequest (store w) <= maxTokensPerDay (store w) ->
      forall left,
        snd (execute (mkEnv A t') RequestTokens w2) <> Failure (DailyLimitExceeded left))).
Proof.
  intros Hok. pose proof (claim_effects w A t Hok) as Heff.
  cbn zeta in Heff.
  destruct Heff as ((Hp & _ & Hcap & _) & (_ & Hdr & Hlrd & _) & _ & Hcfg).
  destruct Hcfg as (Htpr & _ & Hmax & _ & _ & _ & Hp' & _).
  assert (He : entered (store (fst (execute (mkEnv A t) RequestTokens w))) = false).
  { revert Hok. rewrite execute_requestTokens.
    destruct (claim_error (mkEnv A t) w) eqn:Hce; [discriminate|]. intros _.
    apply claim_error_None in Hce. cbn in Hce. destruct Hce as (He & _).
    cbn. unfold rollover. by destruct (_ <? _). }
  cbn zeta. set (w1 := fst (execute (mkEnv A t) RequestTokens w)) in *.
  intros Ho Ht' Htp Hov.
  remember (dailyUsed (store w) A t) as u eqn:Hu. clear Hu.
  rewrite execute_resetUserCooldown, Ho, Z.eqb_refl. cbn [fst].
  rewrite call_getDailyUsage, !execute_requestTokens. unfold claim_error, dailyUsed.
  cbn - [Z.max]. rewrite mget_insert_eq, He, Hp', Hp, Hlrd, Hdr, Hmax, Htpr.
  destruct (Z.ltb_spec t' 0); [lia|].
  split.
  - intros Hday Hfull. rewrite Hday.
    destruct (Z.ltb_spec (Z.max (mget (lastRequestDay (store w)) A) (t / ONE_DAY))
                (t / ONE_DAY)); [lia|].
    repeat split_if.
  - intros Hday.
    destruct (Z.ltb_spec (Z.max (mget (lastRequestDay (store w)) A) (t / ONE_DAY))
                (t' / ONE_DAY)); [|lia].
    split; [repeat f_equal; lia|]. intros Hfit left.
    repeat (split_if; try discriminate).
Qed.

End DailyQuota.

(** * Properties of the client *)

Module FrontendFacts.

Import Frontend.

Lemma ticks_count_down (k : nat) (x : Z) :
  Nat.iter k tick (Z.max 0 x) = Z.max 0 (x - Z.of_nat k).
Proof.
  induction k as [|k IH]; [cbn; lia|].
  rewrite Nat.iter_succ, IH. unfold tick.
  destruct (Z.ltb_spec 0 (Z.max 0 (x - Z.of_nat k))); lia.
Qed.

Lemma pretty_N_char_digit x : is_digit (pretty_N_char x) = true.
Proof. destruct x as [|p]; [reflexivity|]. by do 4 (try destruct p as [p|p|]). Qed.

Lemma pretty_N_go_digits x s :
  all_digits s = true -> all_digits (pretty_N_go x s) = true.
Proof.
  revert s. induction (N.lt_wf_0 x) as [x _ IH]; intros s Hs.
  assert (x = 0 \/ 0 < x)%N as [->|Hx] by lia; [by rewrite pretty_N_go_0|].
  rewrite pretty_N_go_step by done. apply IH; [by apply N.div_lt|].
  cbn. by rewrite pretty_N_char_digit.
Qed.

Lemma pretty_digits (x : Z) : 0 <= x -> all_digits (pretty x) = true.
Proof.
  destruct x as [|p|p]; [reflexivity| |lia]. intros _.
  unfold pretty, pretty_Z, pretty, pretty_positive, pretty, pretty_N.
  case_decide; [reflexivity|]. by apply pretty_N_go_digits.
Qed.

(** Digits followed by a letter split in one way only. *)
Lemma digits_then_letter d1 d2 c1 c2 r1 r2 :
  all_digits d1 = true -> all_digits d2 = true ->
  is_digit c1 = false -> is_digit c2 = false ->
  d1 +:+ String c1 r1 = d2 +:+ String c2 r2 ->
  d1 = d2 /\ c1 = c2 /\ r1 = r2.
Proof.
  revert d2. induction d1 as [|a d1 IH]; intros [|b d2]; cbn;
    intros H1 H2 Hc1 Hc2 Heq.
  - by injection Heq as -> ->.
  - injection Heq as -> _. apply andb_prop in H2 as [H2 _]. congruence.
  - injection Heq as -> _. apply andb_prop in H1 as [H1 _]. congruence.
  - injection Heq as -> Heq.
    apply andb_prop in H1 as [_ H1]. apply andb_prop in H2 as [_ H2].
    destruct (IH d2 H1 H2 Hc1 Hc2 Heq) as (-> & -> & ->). done.
Qed.

Lemma unit_h x : "h " +:+ x = String "h"%char (String " "%char x).
Proof. reflexivity. Qed.

Lemma unit_m x : "m " +:+ x = String "m"%char (String " "%char x).
Proof. reflexivity. Qed.

Lemma time_parts (seconds : Z) :
  0 <= seconds ->
  let hours := seconds / 3600 in
  let minutes := Z.rem seconds 3600 / 60 in
  let secs := Z.rem seconds 60 in
  seconds = hours * 3600 + minutes * 60 + secs /\
  0 <= hours /\ 0 <= minutes < 60 /\ 0 <= secs < 60.
Proof.
  intros Hs. cbn zeta. rewrite !Z.rem_mod_nonneg by lia.
  pose proof (Z.div_mod seconds 3600 ltac:(lia)).
  pose proof (Z.mod_pos_bound seconds 3600 ltac:(lia)).
  pose proof (Z.div_mod (seconds mod 3600) 60 ltac:(lia)).
  pose proof (Z.mod_pos_bound (seconds mod 3600) 60 ltac:(lia)).
  pose proof (Z.mod_pos_bound seconds 60 ltac:(lia)).
  assert (seconds mod 60 = (seconds mod 3600) mod 60) as Hm.
  { symmetry. apply Z.mod_mod_divide. exists 60. lia. }
  pose proof (Z.div_pos seconds 3600 Hs ltac:(lia)).
  assert (0 <= seconds mod 3600 / 60 < 60).
  { split; [apply Z.div_pos; lia|apply Z.div_lt_upper_bound; lia]. }
  repeat split; lia.
Qed.

End FrontendFacts.

(** X17.  The page's countdown follows the contract.  When the stored
    [nextRequestTime] fits a JavaScript number, [checkUserCooldown]
    followed by [k] ticks of the timer shows what the contract's
    [getRemainingCooldown] returns [k] seconds after the client's clock
    reading, and the button waits exactly when a claim at that time
    would fail with [CooldownActive] (on a faucet that is not paused).
    Above [2^53 - 1], [toNumber] throws and the state keeps its old
    value. *)
Theorem X17_countdown_follows_the_contract
    {T : Type} `{Token : IERC20 T}
    (w : World T) (A : address) (date_now old : Z) (k : nat) :
  let nrt := mget (nextRequestTime (store w)) A in
  let now := date_now / 1000 + Z.of_nat k in
  let shown := Nat.iter k Frontend.tick (Frontend.checkUserCooldown w A date_now old) in
  (nrt <= Frontend.MAX_SAFE_INTEGER ->
     call (getRemainingCooldown (mkEnv A now) A) w = Success shown /\
     (entered (store w) = false -> paused (store w) = false ->
      (Frontend.waiting shown = true <->
       exists r, snd (execute (mkEnv A now) RequestTokens w) = Failure (CooldownActive r)))) /\
  (Frontend.MAX_SAFE_INTEGER < nrt ->
     Frontend.checkUserCooldown w A date_now old = old).
Proof.
  cbn zeta. unfold Frontend.checkUserCooldown, Frontend.toNumber.
  change (call (getNextRequestTime A) w)
    with (Success (A := Z) (mget (nextRequestTime (store w)) A)).
  split; intros Hn.
  - destruct (Z.leb_spec (mget (nextRequestTime (store w)) A) Frontend.MAX_SAFE_INTEGER);
      [|lia].
    rewrite FrontendFacts.ticks_count_down, call_getRemainingCooldown.
    cbn [block_timestamp].
    split; [f_equal; lia|]. intros He Hp.
    destruct (remaining_cooldown_error
                w A (date_now / 1000 + Z.of_nat k) He Hp) as [Hv Hiff].
    unfold Frontend.waiting. rewrite Z.ltb_lt. split.
    + intros Hpos. eexists. apply Hiff. split; [|rewrite Hv; reflexivity]. lia.
    + intros [r Hr]. apply Hiff in Hr as [Hr Hc]. rewrite Hv in Hc.
      injection Hc as Hc. lia.
  - destruct (Z.leb_spec (mget (nextRequestTime (store w)) A) Frontend.MAX_SAFE_INTEGER);
      [lia|reflexivity].
Qed.

(** X18.  [formatTime] tells durations apart: two different whole numbers
    of seconds, zero or more, are never displayed as the same text. *)
Theorem X18_formatTime_injective (s1 s2 : Z) :
  0 <= s1 -> 0 <= s2 ->
  Frontend.formatTime s1 = Frontend.formatTime s2 -> s1 = s2.
Proof.
  intros H1 H2.
  pose proof (FrontendFacts.time_parts s1 H1) as P1.
  pose proof (FrontendFacts.time_parts s2 H2) as P2.
  cbn zeta in P1, P2. unfold Frontend.formatTime.
  set (h1 := s1 / 3600) in *. set (m1 := Z.rem s1 3600 / 60) in *.
  set (c1 := Z.rem s1 60) in *.
  set (h2 := s2 / 3600) in *. set (m2 := Z.rem s2 3600 / 60) in *.
  set (c2 := Z.rem s2 60) in *.
  destruct P1 as (E1 & Hh1 & Hm1 & Hc1), P2 as (E2 & Hh2 & Hm2 & Hc2).
  assert (Dh1 := FrontendFacts.pretty_digits h1 Hh1).
  assert (Dm1 := FrontendFacts.pretty_digits m1 ltac:(lia)).
  assert (Dc1 := FrontendFacts.pretty_digits c1 ltac:(lia)).
  assert (Dh2 := FrontendFacts.pretty_digits h2 Hh2).
  assert (Dm2 := FrontendFacts.pretty_digits m2 ltac:(lia)).
  assert (Dc2 := FrontendFacts.pretty_digits c2 ltac:(lia)).
  destruct (Z.ltb_spec 0 h1), (Z.ltb_spec 0 h2);
    try destruct (Z.ltb_spec 0 m1); try destruct (Z.ltb_spec 0 m2);
    intros Heq;
    repeat first [rewrite FrontendFacts.unit_h in Heq
                 |rewrite FrontendFacts.unit_m in Heq];
    repeat match type of Heq with
    | String _ _ = String _ _ => injection Heq as Heq
    | _ +:+ String _ _ = _ +:+ String _ _ =>
        apply FrontendFacts.digits_then_letter in Heq;
          [destruct Heq as (?%(inj pretty) & ? & Heq)|done..]
    end; try congruence; lia.
Qed.

(** X19.  The gas limit sent with a claim is the estimate plus a fifth,
    rounded down: never below the estimate and never more than 20%
    above it. *)
Theorem X19_gasLimit_buffer (gasEstimate : Z) :
  0 <= gasEstimate ->
  gasEstimate <= Frontend.gasLimit gasEstimate /\
  5 * Frontend.gasLimit gasEstimate <= 6 * gasEstimate /\
  6 * gasEstimate < 5 * (Frontend.gasLimit gasEstimate + 1).
Proof.
  intros Hg. unfold Frontend.gasLimit.
  pose proof (Z.div_mod (gasEstimate * 120) 100 ltac:(lia)).
  pose proof (Z.mod_pos_bound (gasEstimate * 120) 100 ltac:(lia)).
  assert (gasEstimate <= gasEstimate * 120 / 100)
    by (apply Z.div_le_lower_bound; lia).
  lia.
Qed.

Section AbortsAndConfig.

Context {T : Type} `{Token : IERC20 T}.

(** X20.  [requestTokens] is all-or-nothing, and its aborts are typed in
    the order of the checks: whatever error it fails with, the storage,
    the token ledger and the log are as before; on a faucet whose lock is
    free it fails with "Pausable: paused" when paused, else with
    [CooldownActive(nextRequestTime - now)] before [nextRequestTime],
    else with [DailyLimitExceeded(cap - usage)] when the usage of the day
    is within the cap and one more claim is not, else with
    [InsufficientFaucetBalance] when the pool is below
    [tokensPerRequest], else with [TransferFailed] when the token's
    [transfer] returns [false]. *)
Theorem X20_requestTokens_aborts (env : Env) (w : World T) :
  (forall w' e, execute env RequestTokens w = (w', Failure e) -> w' = w) /\
  let st := store w in
  let user := msg_sender env in
  let now := block_timestamp env in
  let used := dailyUsed st user now in
  (entered st = false ->
   (paused st = true ->
      execute env RequestTokens w = (w, Failure (RequireFailed "Pausable: paused"))) /\
   (paused st = false -> now < mget (nextRequestTime st) user ->
      execute env RequestTokens w =
        (w, Failure (CooldownActive (mget (nextRequestTime st) user - now)))) /\
   (paused st = false -> mget (nextRequestTime st) user <= now ->
    used + tokensPerRequest st < UINT256_MOD ->
    maxTokensPerDay st < used + tokensPerRequest st -> used <= maxTokensPerDay st ->
      execute env RequestTokens w =
        (w, Failure (DailyLimitExceeded (maxTokensPerDay st - used)))) /\
   (paused st = false -> mget (nextRequestTime st) user <= now ->
    used + tokensPerRequest st <= maxTokensPerDay st ->
    used + tokensPerRequest st < UINT256_MOD ->
    balanceOf (token w) (this w) < tokensPerRequest st ->
      execute env RequestTokens w = (w, Failure InsufficientFaucetBalance)) /\
   (paused st = false -> mget (nextRequestTime st) user <= now ->
    used + tokensPerRequest st <= maxTokensPerDay st ->
    used + tokensPerRequest st < UINT256_MOD ->
    tokensPerRequest st <= balanceOf (token w) (this w) ->
    now + cooldownTime st < UINT256_MOD ->
    totalRequests st + 1 < UINT256_MOD ->
    totalTokensDistributed st + tokensPerRequest st < UINT256_MOD ->
    forall t', transfer (token w) (this w) user (tokensPerRequest st) = Returned t' false ->
      execute env RequestTokens w = (w, Failure TransferFailed))).
Proof.
  split.
  - intros w' e. apply requestTokens_all_or_nothing.
  - apply requestTokens_typed_aborts.
Qed.

(** X21.  [updateFaucetConfig] reaches no address entry: after a
    successful update every address waits as long as before
    ([getNextRequestTime] and [getRemainingCooldown] are unchanged, so a
    new [cooldownTime] applies from the next claim on), has the same
    usage of the day, and has what the new cap leaves of it; the
    counters are unchanged. *)
Theorem X21_config_update_keeps_entries
    (w : World T) (env : Env) (tpr cd cap : Z) :
  msg_sender env = owner (store w) -> tpr <> 0 ->
  let w' := fst (execute env (UpdateFaucetConfig tpr cd cap) w) in
  (forall user now,
     call (getNextRequestTime user) w' = call (getNextRequestTime user) w /\
     call (getRemainingCooldown (mkEnv user now) user) w'
       = call (getRemainingCooldown (mkEnv user now) user) w /\
     call (getDailyUsage (mkEnv user now) user) w'
       = Success (dailyUsed (store w) user now,
                  Z.max 0 (cap - dailyUsed (store w) user now))) /\
  totalRequests (store w') = totalRequests (store w) /\
  totalTokensDistributed (store w') = totalTokensDistributed (store w).
Proof.
  intros Ho Hz. rewrite execute_updateFaucetConfig, Ho, Z.eqb_refl.
  destruct (Z.eqb_spec tpr 0); [contradiction|]. cbn zeta. cbn [fst].
  split; [|by split]. intros user now.
  rewrite !call_getRemainingCooldown, !call_getDailyUsage. repeat split.
Qed.

End AbortsAndConfig.

(** ** The properties at concrete inputs *)

Example formatTime_examples :
  Frontend.formatTime 3725 = "1h 2m 5s"%string /\
  Frontend.formatTime 3600 = "1h 0m 0s"%string /\
  Frontend.formatTime 65 = "1m 5s"%string /\
  Frontend.formatTime 5 = "5s"%string.
Proof. repeat split; reflexivity. Qed.

Lemma X1_witness :
  entered (store Scenario.lowered_1) = false /\
  paused (store Scenario.lowered_1) = false /\
  forall r,
    snd (execute (mkEnv alice 10) RequestTokens Scenario.lowered_1)
      = Failure (CooldownActive r) <->
    0 < r /\
    call (getRemainingCooldown (mkEnv alice 10) alice) Scenario.lowered_1 = Success r.
Proof.
  split; [reflexivity|]. split; [reflexivity|].
  destruct (X1_remaining_cooldown_is_the_cooldown_error Scenario.lowered_1 alice 10)
    as [_ Hiff].
  exact (Hiff eq_refl eq_refl).
Defined.

Lemma X3_witness :
  entered (store Scenario.lowered) = false /\
  paused (store Scenario.lowered) = false /\
  mget (nextRequestTime (store Scenario.lowered)) alice <= 100 /\
  0 < tokensPerRequest (store Scenario.lowered) /\
  10 + tokensPerRequest (store Scenario.lowered) < UINT256_MOD /\
  call (getDailyUsage (mkEnv alice 100) alice) Scenario.lowered = Success (10, 0) /\
  0 < tokensPerRequest (store Scenario.lowered) /\
  execute (mkEnv alice 100) RequestTokens Scenario.lowered
  = (Scenario.lowered,
     Failure (if 10 <=? maxTokensPerDay (store Scenario.lowered)
              then DailyLimitExceeded 0 else Panic ARITHMETIC)).
Proof.
  assert (H1 : entered (store Scenario.lowered) = false) by reflexivity.
  assert (H2 : paused (store Scenario.lowered) = false) by reflexivity.
  assert (H3 : mget (nextRequestTime (store Scenario.lowered)) alice <= 100)
    by (by vm_compute).
  assert (H4 : 0 < tokensPerRequest (store Scenario.lowered)) by reflexivity.
  assert (H5 : 10 + tokensPerRequest (store Scenario.lowered) < UINT256_MOD)
    by reflexivity.
  assert (H6 : call (getDailyUsage (mkEnv alice 100) alice) Scenario.lowered
               = Success (10, 0)) by reflexivity.
  repeat (split; [assumption|]).
  destruct (X3_remaining_quota_decides_the_limit
              Scenario.lowered alice 100 10 0 H1 H2 H3 H4 H5 H6) as [_ Hfail].
  exact (Hfail H4).
Defined.

Lemma X4_witness :
  snd (execute (mkEnv alice 0) RequestTokens Scenario.lowered_0) = Success tt /\
  call (getNextRequestTime alice)
    (fst (execute (mkEnv alice 0) RequestTokens Scenario.lowered_0))
  = Success (0 + cooldownTime (store Scenario.lowered_0)).
Proof.
  assert (H : snd (execute (mkEnv alice 0) RequestTokens Scenario.lowered_0)
              = Success tt) by reflexivity.
  split; [exact H|].
  destruct (X4_cooldown_after_a_claim Scenario.lowered_0 alice 0 H) as [Hn _].
  exact Hn.
Defined.

Lemma X5_witness :
  snd (execute (mkEnv alice 0) RequestTokens Scenario.lowered_0) = Success tt /\
  (paused (store Scenario.lowered_0) = false /\
   mget (nextRequestTime (store Scenario.lowered_0)) alice <= 0 /\
   dailyUsed (store Scenario.lowered_0) alice 0
     + tokensPerRequest (store Scenario.lowered_0)
     <= maxTokensPerDay (store Scenario.lowered_0) /\
   tokensPerRequest (store Scenario.lowered_0)
     <= balanceOf (token Scenario.lowered_0) (this Scenario.lowered_0)).
Proof.
  assert (H : snd (execute (mkEnv alice 0) RequestTokens Scenario.lowered_0)
              = Success tt) by reflexivity.
  split; [exact H|].
  destruct (X5_effects_of_a_claim Scenario.lowered_0 alice 0 H) as [Hpre _].
  exact Hpre.
Defined.

Lemma X6_witness :
  snd (execute (mkEnv alice 0) RequestTokens Scenario.lowered_0) = Success tt /\
  dailyUsed (store Scenario.lowered_0) alice 0
    + tokensPerRequest (store Scenario.lowered_0)
    <= maxTokensPerDay (store Scenario.lowered_0).
Proof.
  assert (H : snd (execute (mkEnv alice 0) RequestTokens Scenario.lowered_0)
              = Success tt) by reflexivity.
  split; [exact H|].
  destruct (X6_usage_after_a_claim Scenario.lowered_0 alice 0 H) as [_ Hcap].
  exact Hcap.
Defined.

Lemma X7_witness :
  owner (store Scenario.lowered_0) = deployer /\
  paused (store Scenario.lowered_0) = false /\
  snd (execute (mkEnv deployer 1) Pause Scenario.lowered_0) = Success tt.
Proof.
  split; [reflexivity|]. split; [reflexivity|].
  destruct (X7_pause_unpause_round_trip Scenario.lowered_0 deployer 1 2
              eq_refl eq_refl) as [Hp _].
  exact Hp.
Defined.

Lemma X8_witness :
  pause_aware (ResetUserCooldown alice) = false /\
  execute (mkEnv deployer 1) (ResetUserCooldown alice)
    (with_store (set_paused true) Scenario.lowered_1)
  = (with_store (set_paused true)
       (fst (execute (mkEnv deployer 1) (ResetUserCooldown alice) Scenario.lowered_1)),
     snd (execute (mkEnv deployer 1) (ResetUserCooldown alice) Scenario.lowered_1)).
Proof.
  split; [reflexivity|].
  exact (X8_pause_gates_claims_only Scenario.lowered_1 (mkEnv deployer 1)
           (ResetUserCooldown alice) true eq_refl).
Defined.

Lemma X9_witness :
  owner_only Pause = true /\
  msg_sender (mkEnv alice 0) <> owner (store Scenario.lowered_0) /\
  execute (mkEnv alice 0) Pause Scenario.lowered_0 = (Scenario.lowered_0, Failure NOT_OWNER).
Proof.
  assert (Hne : msg_sender (mkEnv alice 0) <> owner (store Scenario.lowered_0))
    by discriminate.
  split; [reflexivity|]. split; [exact Hne|].
  destruct (X9_only_owner Scenario.lowered_0 (mkEnv alice 0) Pause) as [Hfail _].
  exact (Hfail eq_refl Hne).
Defined.

Lemma X10_witness :
  msg_sender (mkEnv deployer 5) = owner (store (Scenario.deploy (funded 0) 10 60 20)) /\
  balanceOf (token (Scenario.deploy (funded 0) 10 60 20))
    (this (Scenario.deploy (funded 0) 10 60 20)) = 0 /\
  execute (mkEnv deployer 5) EmergencyWithdraw (Scenario.deploy (funded 0) 10 60 20)
  = (Scenario.deploy (funded 0) 10 60 20, Success tt).
Proof.
  split; [reflexivity|]. split; [reflexivity|].
  destruct (X10_emergencyWithdraw (Scenario.deploy (funded 0) 10 60 20)
              (mkEnv deployer 5) eq_refl) as [Hempty _].
  exact (Hempty eq_refl).
Defined.

Lemma X11_witness :
  msg_sender (mkEnv deployer 5) = owner (store Scenario.lowered_0) /\
  500 <> 0 /\
  (snd (execute (mkEnv deployer 5) (WithdrawTokens 500) Scenario.lowered_0)
     = Failure InsufficientFaucetBalance
   <-> balanceOf (token Scenario.lowered_0) (this Scenario.lowered_0) < 500).
Proof.
  assert (Hnz : 500 <> 0) by discriminate.
  split; [reflexivity|]. split; [exact Hnz|].
  destruct (X11_withdrawTokens Scenario.lowered_0 (mkEnv deployer 5) 500
              eq_refl Hnz) as [Hiff _].
  exact Hiff.
Defined.

Lemma X12_witness :
  7 <> 0 /\
  execute (mkEnv alice 1) (DepositTokens 7) Scenario.refusing
  = (Scenario.refusing, Failure TransferFailed).
Proof.
  assert (Hnz : 7 <> 0) by discriminate.
  split; [exact Hnz|].
  destruct (X12_depositTokens Scenario.refusing (mkEnv alice 1) 7) as (_ & Hdep & _).
  destruct (Hdep Hnz) as [_ Hfalse].
  exact (Hfalse _ eq_refl).
Defined.

Lemma X13_witness :
  reachable [(alice, 10)] 100 Scenario.lowered /\
  mget (lastRequestDay (store Scenario.lowered)) alice <= 100 / ONE_DAY.
Proof.
  split; [exact ScenarioFacts.lowered_reachable|].
  destruct (X13_days_not_ahead _ _ _ ScenarioFacts.lowered_reachable alice) as [Hd _].
  exact Hd.
Defined.

Lemma X14_witness :
  reachable [(alice, 10)] 100 Scenario.lowered /\
  requested_events (logs Scenario.lowered) = [(alice, 10)].
Proof.
  split; [exact ScenarioFacts.lowered_reachable|].
  destruct (X14_log_matches_counters _ _ _ ScenarioFacts.lowered_reachable) as [Hl _].
  exact Hl.
Defined.

Lemma X15_witness :
  reachable [(alice, 10)] 100 Scenario.lowered /\
  minTokenBalance (store Scenario.lowered) = tokensPerRequest (store Scenario.lowered).
Proof.
  split; [exact ScenarioFacts.lowered_reachable|].
  destruct (X15_configuration_invariants _ _ _ ScenarioFacts.lowered_reachable)
    as [Hm _].
  exact Hm.
Defined.

Lemma X17_witness :
  mget (nextRequestTime (store Scenario.lowered_1)) alice <= Frontend.MAX_SAFE_INTEGER /\
  call (getRemainingCooldown (mkEnv alice (5000 / 1000 + Z.of_nat 3)) alice)
    Scenario.lowered_1
  = Success (Nat.iter 3 Frontend.tick
               (Frontend.checkUserCooldown Scenario.lowered_1 alice 5000 0)).
Proof.
  assert (Hn : mget (nextRequestTime (store Scenario.lowered_1)) alice
               <= Frontend.MAX_SAFE_INTEGER) by (by vm_compute).
  split; [exact Hn|].
  destruct (X17_countdown_follows_the_contract Scenario.lowered_1 alice 5000 0 3)
    as [Hsafe _].
  destruct (Hsafe Hn) as [Hv _].
  exact Hv.
Defined.

Lemma X18_witness :
  0 <= 3725 /\ 0 <= 1 * 3600 + 2 * 60 + 5 /\
  Frontend.formatTime 3725 = Frontend.formatTime (1 * 3600 + 2 * 60 + 5) /\
  3725 = 1 * 3600 + 2 * 60 + 5.
Proof.
  assert (H1 : 0 <= 3725) by discriminate.
  assert (H2 : 0 <= 1 * 3600 + 2 * 60 + 5) by discriminate.
  assert (H3 : Frontend.formatTime 3725 = Frontend.formatTime (1 * 3600 + 2 * 60 + 5))
    by reflexivity.
  repeat (split; [assumption|]).
  exact (X18_formatTime_injective 3725 (1 * 3600 + 2 * 60 + 5) H1 H2 H3).
Defined.

Lemma X19_witness :
  0 <= 21000 /\ 21000 <= Frontend.gasLimit 21000.
Proof.
  assert (H : 0 <= 21000) by discriminate.
  split; [exact H|].
  destruct (X19_gasLimit_buffer 21000 H) as [Hle _].
  exact Hle.
Defined.

Lemma X16_witness :
  let w := Scenario.deploy (funded 100) 10 60 10 in
  let w1 := fst (execute (mkEnv alice 0) RequestTokens w) in
  let w2 := fst (execute (mkEnv deployer 5) (ResetUserCooldown alice) w1) in
  let used := dailyUsed (store w) alice 0 + tokensPerRequest (store w) in
  snd (execute (mkEnv alice 0) RequestTokens w) = Success tt /\
  msg_sender (mkEnv deployer 5) = owner (store w1) /\
  0 <= 100 /\ 0 <= tokensPerRequest (store w) /\
  used + tokensPerRequest (store w) < UINT256_MOD /\
  100 / ONE_DAY = 0 / ONE_DAY /\
  maxTokensPerDay (store w) < used + tokensPerRequest (store w) /\
  execute (mkEnv alice 100) RequestTokens w2
  = (w2, Failure (DailyLimitExceeded (maxTokensPerDay (store w) - used))).
Proof.
  cbn zeta.
  assert (H1 : snd (execute (mkEnv alice 0) RequestTokens
                      (Scenario.deploy (funded 100) 10 60 10)) = Success tt)
    by reflexivity.
  assert (H2 : msg_sender (mkEnv deployer 5)
               = owner (store (fst (execute (mkEnv alice 0) RequestTokens
                                      (Scenario.deploy (funded 100) 10 60 10)))))
    by reflexivity.
  assert (H3 : 0 <= 100) by discriminate.
  assert (H4 : 0 <= tokensPerRequest (store (Scenario.deploy (funded 100) 10 60 10)))
    by discriminate.
  assert (H5 : dailyUsed (store (Scenario.deploy (funded 100) 10 60 10)) alice 0
               + tokensPerRequest (store (Scenario.deploy (funded 100) 10 60 10))
               + tokensPerRequest (store (Scenario.deploy (funded 100) 10 60 10))
               < UINT256_MOD) by reflexivity.
  assert (H6 : 100 / ONE_DAY = 0 / ONE_DAY) by reflexivity.
  assert (H7 : maxTokensPerDay (store (Scenario.deploy (funded 100) 10 60 10))
               < dailyUsed (store (Scenario.deploy (funded 100) 10 60 10)) alice 0
                 + tokensPerRequest (store (Scenario.deploy (funded 100) 10 60 10))
                 + tokensPerRequest (store (Scenario.deploy (funded 100) 10 60 10)))
    by reflexivity.
  repeat (split; [assumption|]).
  destruct (X16_cap_outlasts_cooldown_reset
              (Scenario.deploy (funded 100) 10 60 10) alice 0 100 (mkEnv deployer 5)
              H1 H2 H3 H4 H5) as [Hsame _].
  exact (Hsame H6 H7).
Defined.

Lemma X20_witness :
  entered (store Scenario.lowered_1) = false /\
  paused (store Scenario.lowered_1) = false /\
  10 < mget (nextRequestTime (store Scenario.lowered_1)) alice /\
  execute (mkEnv alice 10) RequestTokens Scenario.lowered_1
  = (Scenario.lowered_1,
     Failure (CooldownActive (mget (nextRequestTime (store Scenario.lowered_1)) alice - 10))).
Proof.
  assert (H1 : entered (store Scenario.lowered_1) = false) by reflexivity.
  assert (H2 : paused (store Scenario.lowered_1) = false) by reflexivity.
  assert (H3 : 10 < mget (nextRequestTime (store Scenario.lowered_1)) alice)
    by reflexivity.
  repeat (split; [assumption|]).
  destruct (X20_requestTokens_aborts (mkEnv alice 10) Scenario.lowered_1) as [_ Hab].
  destruct (Hab H1) as (_ & Hcool & _).
  exact (Hcool H2 H3).
Defined.

Lemma X21_witness :
  msg_sender (mkEnv deployer 30) = owner (store Scenario.lowered_1) /\
  10 <> 0 /\
  totalRequests (store (fst (execute (mkEnv deployer 30) (UpdateFaucetConfig 10 60 5)
                               Scenario.lowered_1)))
  = totalRequests (store Scenario.lowered_1).
Proof.
  assert (Hnz : 10 <> 0) by discriminate.
  split; [reflexivity|]. split; [exact Hnz|].
  destruct (X21_config_update_keeps_entries Scenario.lowered_1 (mkEnv deployer 30)
              10 60 5 eq_refl Hnz) as (_ & Hn & _).
  exact Hn.
Defined.
